(** * Verification of the monitoring core of ethereum-exporter

    A shallow embedding of [monitor.go] (package [monitor]): the chain
    probe [setupApis], the bounded registration loop [setupConsul], the
    polling loop [start] and one gathering round [gatherMetrics].

    Collaborators that live outside the file (the JSON-RPC client, the
    Etherscan client, the Consul client, the metrics sink, the logger) are
    modelled by their answers, supplied as inputs, and by the trace of
    calls made to them. *)

From Stdlib Require Import ZArith String Ascii List Bool Lia DecimalString.
From Stdlib Require Import Floats.SpecFloat.
Import ListNotations.

Local Open Scope string_scope.
Local Open Scope Z_scope.

(* ================================================================= *)
(** ** Go integers: [big.Int], [int64], [int] *)

Module GoInt.

(** Values of [big.Int] are unbounded integers. *)
Definition bigInt := Z.

Definition two64 : Z := 2 ^ 64.
Definition maxInt64 : Z := 2 ^ 63 - 1.
Definition minInt64 : Z := - 2 ^ 63.

(** Conversion [int64(u)] of a [uint64]: reinterpretation of the bits. *)
Definition int64_of_uint64 (u : Z) : Z :=
  if u <? 2 ^ 63 then u else u - two64.

(** Arithmetic on [int64] wraps around. *)
Definition wrap64 (z : Z) : Z := int64_of_uint64 (z mod two64).

(** [low64(x.abs)]: the least significant 64 bits of the magnitude. *)
Definition low64 (x : bigInt) : Z := Z.abs x mod two64.

(** The method [Int64] of [big.Int]:
<<
    v := int64(low64(x.abs)); if x.neg { v = -v }; return v
>>
    The result is the value of [x] when it fits in an [int64]. *)
Definition Int64 (x : bigInt) : Z :=
  let v := int64_of_uint64 (low64 x) in
  if x <? 0 then wrap64 (- v) else v.

(** [int(v)] for an [int64] [v]; [int] is 64 bits wide on the
    platforms the exporter is built for. *)
Definition int (v : Z) : Z := v.

Definition in_int64 (z : Z) : Prop := minInt64 <= z <= maxInt64.

(** [func Abs(x *big.Int) *big.Int] *)
Definition Abs (x : bigInt) : bigInt := Z.abs x.

(** [func Sub(x, y *big.Int) *big.Int] *)
Definition Sub (x y : bigInt) : bigInt := x - y.

End GoInt.

(* ================================================================= *)
(** ** Go floating point: [float32], [float64], [time.Duration] *)

Module GoFloat.

(** IEEE 754 binary32 and binary64 values, as the standard library's
    specification floats at precision 24 / 53. *)
Definition float32 := spec_float.
Definition float64 := spec_float.

(** [float32(v)] for an integer [v]: round to nearest, ties to even. *)
Definition float32_of_int (v : Z) : float32 :=
  binary_normalize 24 128 v 0 false.

(** [float64(v)] for an integer [v]. *)
Definition float64_of_int (v : Z) : float64 :=
  binary_normalize 53 1024 v 0 false.

(** [float32(f)] for a [float64] [f]. *)
Definition float32_of_float64 (f : float64) : float32 :=
  match f with
  | S754_finite s m e => binary_round 24 128 s m e
  | _ => f
  end.

(** [time.Second], in nanoseconds. *)
Definition Second : Z := 1000000000.
Definition Minute : Z := 60 * Second.

(** [time.Time.Sub]: the difference of two instants (nanoseconds since
    the epoch), saturated to the range of a [Duration]. *)
Definition Time_Sub (t u : Z) : Z :=
  Z.max GoInt.minInt64 (Z.min GoInt.maxInt64 (t - u)).

(** [time.Duration.Seconds]:
<<
    sec := d / Second; nsec := d % Second
    return float64(sec) + float64(nsec)/1e9
>>  *)
Definition Seconds (d : Z) : float64 :=
  let sec := Z.quot d Second in
  let nsec := Z.rem d Second in
  SFadd 53 1024 (float64_of_int sec)
        (SFdiv 53 1024 (float64_of_int nsec) (float64_of_int 1000000000)).

(** [represents f z]: the float [f] is finite and its value is exactly
    the integer [z]. *)
Definition represents (f : spec_float) (z : Z) : bool :=
  match f with
  | S754_zero _ => z =? 0
  | S754_finite s m e =>
      if 0 <=? e
      then cond_Zopp s (Zpos m) * 2 ^ e =? z
      else cond_Zopp s (Zpos m) =? z * 2 ^ (- e)
  | _ => false
  end.

End GoFloat.

(* ================================================================= *)
(** ** Go strings *)

Module GoStrings.

Definition LF : string := String "010"%char EmptyString.
Definition TAB : string := String "009"%char EmptyString.

(** [strings.Contains(s, substr)]: [substr] occurs within [s]. *)
Fixpoint Contains (s substr : string) : bool :=
  if String.prefix substr s then true
  else match s with
       | EmptyString => false
       | String _ s' => Contains s' substr
       end.

(** [strings.Join(elems, sep)] *)
Fixpoint Join (elems : list string) (sep : string) : string :=
  match elems with
  | [] => ""
  | [e] => e
  | e :: rest => e ++ sep ++ Join rest sep
  end.

(** Decimal rendering of an integer, as [%d] does. *)
Definition Itoa (z : Z) : string := NilZero.string_of_int (Z.to_int z).

(** Rendering of a boolean, as [%v] does. *)
Definition FormatBool (b : bool) : string := if b then "true" else "false".

End GoStrings.

(* ================================================================= *)
(** ** Errors and [go-multierror] *)

Module Multierror.

(** A collaborator either answers or fails with an error; what the
    monitor uses of an error is its text ([err.Error()]) and the fact
    that it is not [nil]. *)
Inductive result (A : Type) : Type :=
| Ok (a : A)
| Err (err : string).
Arguments Ok {A} a.
Arguments Err {A} err.

(** [var errors error]: [None] is the [nil] error, [Some es] is a
    [multierror.Error] whose [Errors] field is [es]. *)
Definition error := option (list string).

Definition nil : error := None.

(** [multierror.Append(errors, err)] for a plain (non-aggregate) [err]:
    the causes are kept in the order they were appended. *)
Definition Append (errors : error) (err : string) : error :=
  match errors with
  | None => Some [err]
  | Some es => Some (es ++ [err])%list
  end.

(** [multierror.ListFormatFunc], the formatter [Error()] uses by
    default. *)
Definition ListFormatFunc (es : list string) : string :=
  match es with
  | [e] =>
      "1 error occurred:" ++ GoStrings.LF ++ GoStrings.TAB ++ "* " ++ e
        ++ GoStrings.LF ++ GoStrings.LF
  | _ =>
      let points := map (fun e => "* " ++ e) es in
      GoStrings.Itoa (Z.of_nat (length es)) ++ " errors occurred:"
        ++ GoStrings.LF ++ GoStrings.TAB
        ++ GoStrings.Join points (GoStrings.LF ++ GoStrings.TAB)
        ++ GoStrings.LF ++ GoStrings.LF
  end.

Definition is_Ok {A} (r : result A) : bool :=
  match r with Ok _ => true | Err _ => false end.

(** The causes a sequence of answers contributes, in order. *)
Definition failure {A} (r : result A) : list string :=
  match r with Ok _ => [] | Err e => [e] end.

End Multierror.
Import Multierror.

(* ================================================================= *)
(** ** The monitor's data *)

(** Modelled from the spec: the type of [Config.ConsulConfig] is declared
    outside this file; the spec lists the registry address, service name
    and tags, and these are the fields [setupConsulImpl] reads. *)
Record ConsulConfig : Type := {
  Address : string;
  ServiceName : string;
  Tags : list string
}.

(** Modelled from the spec: the type [Config] is declared outside this
    file; the spec lists the options the core consumes, and the fields
    below are the ones the monitor reads.  [RPCInterval] is a
    [time.Duration] in nanoseconds, [SyncThreshold] and [BindPort] are
    Go [int]s. *)
Record Config : Type := {
  Endpoint : string;
  NodeName : string;
  BindAddr : string;
  BindPort : Z;
  RPCInterval : Z;
  SyncThreshold : Z;
  Consul : ConsulConfig
}.

(** Modelled from the spec: the type [Block] is declared outside this
    file; the spec gives it a number and a timestamp, and the code reads
    [Timestamp], an instant taken here in nanoseconds since the epoch. *)
Record Block : Type := {
  Number : GoInt.bigInt;
  Timestamp : Z
}.

(** [metrics.Label] *)
Record Label : Type := {
  Name : string;
  Value : string
}.

(** [type Monitor struct].  [ethClient] and [etherscan] are the
    collaborator handles, identified by the endpoint and the URL they
    were built from ([None] is the [nil] pointer). *)
Record Monitor : Type := {
  config : Config;
  chain : string;
  etherscan : option string;
  ethClient : option string;
  lastBlock : option Block;
  connected : bool;
  synced : bool;
  baseLabels : list Label
}.

Definition set_etherscan (v : option string) (m : Monitor) : Monitor :=
  {| config := config m; chain := chain m; etherscan := v;
     ethClient := ethClient m; lastBlock := lastBlock m;
     connected := connected m; synced := synced m;
     baseLabels := baseLabels m |}.

Definition set_ethClient (v : option string) (m : Monitor) : Monitor :=
  {| config := config m; chain := chain m; etherscan := etherscan m;
     ethClient := v; lastBlock := lastBlock m;
     connected := connected m; synced := synced m;
     baseLabels := baseLabels m |}.

Definition set_lastBlock (v : option Block) (m : Monitor) : Monitor :=
  {| config := config m; chain := chain m; etherscan := etherscan m;
     ethClient := ethClient m; lastBlock := v;
     connected := connected m; synced := synced m;
     baseLabels := baseLabels m |}.

Definition set_connected (v : bool) (m : Monitor) : Monitor :=
  {| config := config m; chain := chain m; etherscan := etherscan m;
     ethClient := ethClient m; lastBlock := lastBlock m;
     connected := v; synced := synced m;
     baseLabels := baseLabels m |}.

Definition set_synced (v : bool) (m : Monitor) : Monitor :=
  {| config := config m; chain := chain m; etherscan := etherscan m;
     ethClient := ethClient m; lastBlock := lastBlock m;
     connected := connected m; synced := v;
     baseLabels := baseLabels m |}.

Definition set_baseLabels (v : list Label) (m : Monitor) : Monitor :=
  {| config := config m; chain := chain m; etherscan := etherscan m;
     ethClient := ethClient m; lastBlock := lastBlock m;
     connected := connected m; synced := synced m;
     baseLabels := v |}.

(** The struct literal of [NewMonitor]:
    [&Monitor{config: config, connected: false, synced: false}]. *)
Definition NewMonitor (cfg : Config) : Monitor :=
  {| config := cfg; chain := ""; etherscan := None; ethClient := None;
     lastBlock := None; connected := false; synced := false;
     baseLabels := [] |}.

(* ================================================================= *)
(** ** Collaborators: what is asked, and what is answered *)

(** The queries the monitor sends to the node and to the explorer. *)
Inductive Query : Type :=
| QChain
| QPeerCount
| QBlockNumber
| QBlockByNumber (number : option GoInt.bigInt)
| QEtherscanBlockNumber.

(** [consulapi.AgentServiceCheck] and [consulapi.AgentServiceRegistration],
    with the fields [setupConsulImpl] fills in. *)
Record AgentServiceCheck : Type := {
  CheckHTTP : string;
  CheckInterval : string;
  CheckTimeout : string
}.

Record AgentServiceRegistration : Type := {
  ID : string;
  SvcName : string;
  SvcTags : list string;
  SvcPort : Z;
  SvcCheck : AgentServiceCheck
}.

(** Everything the monitor does to the outside world. *)
Inductive Event : Type :=
| Call (q : Query)
| SetGaugeWithLabels (key : list string) (val : GoFloat.float32)
                     (labels : list Label)
| LoggerPrintf (msg : string)
| FmtPrintf (msg : string)
| ConsulNewClient (address : string)
| ServiceRegister (service : AgentServiceRegistration)
| Sleep (d : Z).

(** The answers the node and the explorer give during one iteration of
    the polling loop.  A failed [BlockNumber] leaves the number [nil], so
    [BlockByNumber] is asked with an optional number. *)
Record Answers : Type := {
  Chain : result string;
  PeerCount : result Z;
  BlockNumber : result GoInt.bigInt;
  BlockByNumber : option GoInt.bigInt -> result Block;
  EtherscanBlockNumber : result GoInt.bigInt
}.

(** The answers of the Consul client during one registration attempt
    ([None] is the [nil] error). *)
Record ConsulAnswers : Type := {
  NewClient : option string;
  AgentServiceRegister : option string
}.

(* ================================================================= *)
(** ** A state-and-trace monad for the methods of [Monitor] *)

Definition M (A : Type) : Type := Monitor -> A * Monitor * list Event.

Definition ret {A} (a : A) : M A := fun m => (a, m, []).

Definition bind {A B} (c : M A) (f : A -> M B) : M B :=
  fun m =>
    let '(a, m1, t1) := c m in
    let '(b, m2, t2) := f a m1 in
    (b, m2, (t1 ++ t2)%list).

Declare Scope monitor_scope.
Delimit Scope monitor_scope with monitor.
Notation "x <- c ;; k" := (bind c (fun x => k))
  (at level 61, c at next level, right associativity) : monitor_scope.
Notation "c ;; k" := (bind c (fun _ => k))
  (at level 61, right associativity) : monitor_scope.
Local Open Scope monitor_scope.

Definition get : M Monitor := fun m => (m, m, []).
Definition modify (f : Monitor -> Monitor) : M unit := fun m => (tt, f m, []).
Definition emit (e : Event) : M unit := fun m => (tt, m, [e]).

Definition value {A} (r : A * Monitor * list Event) : A := fst (fst r).
Definition state {A} (r : A * Monitor * list Event) : Monitor := snd (fst r).
Definition trace {A} (r : A * Monitor * list Event) : list Event := snd r.

(** A query: the call is recorded, the collaborator's answer returned. *)
Definition ask {A} (q : Query) (answer : A) : M A :=
  emit (Call q) ;; ret answer.

(** [metrics.SetGaugeWithLabels(key, val, m.baseLabels)] *)
Definition SetGauge (key : list string) (val : GoFloat.float32) : M unit :=
  m <- get ;; emit (SetGaugeWithLabels key val (baseLabels m)).

(** [m.logger.Printf] and [m.logger.Println], with the rendered text. *)
Definition logger_Printf (msg : string) : M unit := emit (LoggerPrintf msg).

(** [fmt.Printf], with the rendered text. *)
Definition fmt_Printf (msg : string) : M unit := emit (FmtPrintf msg).

(* ================================================================= *)
(** ** The methods of [Monitor] *)

(** [func (m *Monitor) setBaseLabels()] *)
Definition setBaseLabels : M unit :=
  modify (set_baseLabels []) ;;
  m <- get ;;
  modify (set_baseLabels
            (baseLabels m ++ [{| Name := "node";
                                 Value := NodeName (config m) |}])%list).

Definition kovan_url : string :=
  "https://kovan.etherscan.io/api?module=proxy&action=eth_blockNumber".
Definition foundation_url : string :=
  "https://api.etherscan.io/api?module=proxy&action=eth_blockNumber".

(** [func (m *Monitor) setupApis() error]: build the node client, ask
    the node for its chain and pick the explorer for it.  The result is
    the returned error ([None] is [nil]). *)
Definition setupApis (w : Answers) : M (option string) :=
  m <- get ;;
  modify (set_ethClient (Some (Endpoint (config m)))) ;;
  r <- ask QChain (Chain w) ;;
  match r with
  | Err err => ret (Some err)
  | Ok chain =>
      let url :=
        if (chain =? "kovan")%string then Some kovan_url
        else if (chain =? "foundation")%string then Some foundation_url
        else None in
      match url with
      | None =>
          ret (Some ("Chain " ++ chain ++
            " not found. 'kovan' and 'foundation' are the only valid options"))
      | Some url =>
          logger_Printf ("Using chain " ++ chain) ;;
          modify (set_etherscan (Some url)) ;;
          ret None
      end
  end.

(** [func (m *Monitor) setupConsulImpl() error].  The service ID is
    [fmt.Sprintf(m.config.NodeName)], which is the node name itself for a
    name without formatting verbs. *)
Definition setupConsulImpl (c : ConsulAnswers) : M (option string) :=
  m <- get ;;
  let cfg := config m in
  let serviceID := NodeName cfg in
  let healthAddr := BindAddr cfg ++ ":" ++ GoStrings.Itoa (BindPort cfg) in
  let service :=
    {| ID := serviceID;
       SvcName := ServiceName (Consul cfg);
       SvcTags := Tags (Consul cfg);
       SvcPort := 8545;
       SvcCheck := {| CheckHTTP := "http://" ++ healthAddr ++ "/synced";
                      CheckInterval := "1s";
                      CheckTimeout := "5s" |} |} in
  emit (ConsulNewClient (Address (Consul cfg))) ;;
  match NewClient c with
  | Some err => ret (Some err)
  | None =>
      emit (ServiceRegister service) ;;
      match AgentServiceRegister c with
      | Some err => ret (Some err)
      | None => ret None
      end
  end.

Definition retries : nat := 5.
Definition sleepDuration : Z := 1 * GoFloat.Minute.

(** The loop [for i := 0; i < retries; i++] of [setupConsul], entered at
    index [i] with [remaining = retries - i] iterations to go; [registry i]
    is what the Consul client answers during attempt [i]. *)
Fixpoint setupConsul_for (remaining i : nat)
         (registry : nat -> ConsulAnswers) : M unit :=
  match remaining with
  | O => logger_Printf "Stop trying to register on consul"
  | S remaining' =>
      err <- setupConsulImpl (registry i) ;;
      match err with
      | None => logger_Printf "Service registred in consul"
      | Some err =>
          logger_Printf ("Failed to connect to consul: " ++ err) ;;
          emit (Sleep sleepDuration) ;;
          setupConsul_for remaining' (S i) registry
      end
  end.

(** [func (m *Monitor) setupConsul()] *)
Definition setupConsul (registry : nat -> ConsulAnswers) : M unit :=
  setupConsul_for retries 0 registry.

(** The lag the round compares with the threshold:
    [int(Abs(blocksbehind).Int64())]. *)
Definition blocksDiff_of (blocksbehind : GoInt.bigInt) : Z :=
  GoInt.int (GoInt.Int64 (GoInt.Abs blocksbehind)).

(** [func (m *Monitor) gatherMetrics() error] *)
Definition gatherMetrics (w : Answers) : M error :=
  let errors := Multierror.nil in
  (* Peers *)
  r <- ask QPeerCount (PeerCount w) ;;
  errors <- match r with
            | Err err => ret (Append errors err)
            | Ok peers =>
                SetGauge ["peers"] (GoFloat.float32_of_int peers) ;;
                ret errors
            end ;;
  (* BlockNumber *)
  r <- ask QBlockNumber (BlockNumber w) ;;
  let blockNumber := match r with Ok n => Some n | Err _ => None end in
  errors <- match r with
            | Err err => ret (Append errors err)
            | Ok n =>
                SetGauge ["blockNumber"]
                         (GoFloat.float32_of_int (GoInt.Int64 n)) ;;
                ret errors
            end ;;
  (* Block *)
  r <- ask (QBlockByNumber blockNumber) (BlockByNumber w blockNumber) ;;
  errors <- match r with
            | Err err => ret (Append errors err)
            | Ok block =>
                m <- get ;;
                match lastBlock m with
                | Some last =>
                    let blockTime :=
                      GoFloat.Time_Sub (Timestamp block) (Timestamp last) in
                    SetGauge ["blocktime"]
                      (GoFloat.float32_of_float64 (GoFloat.Seconds blockTime))
                | None => ret tt
                end ;;
                modify (set_lastBlock (Some block)) ;;
                ret errors
            end ;;
  (* Etherscan *)
  match blockNumber with
  | Some blockNumber =>
      r <- ask QEtherscanBlockNumber (EtherscanBlockNumber w) ;;
      match r with
      | Err err => ret (Append errors err)
      | Ok realBlockNumber =>
          let blocksbehind := GoInt.Sub realBlockNumber blockNumber in
          SetGauge ["blocksbehind"]
                   (GoFloat.float32_of_int (GoInt.Int64 blocksbehind)) ;;
          let blocksDiff := blocksDiff_of blocksbehind in
          m <- get ;;
          (if blocksDiff <=? SyncThreshold (config m)
           then modify (set_synced true)
           else modify (set_synced false)) ;;
          ret errors
      end
  | None => ret errors
  end.

(** What the [select] of the polling loop receives: the timer of
    [time.After(m.config.RPCInterval)] (together with what the
    collaborators answer while that iteration runs), or [ctx.Done()]. *)
Inductive Select : Type :=
| TimeAfter (w : Answers)
| CtxDone.

(** Where the goroutine running [start] is once the given outcomes of
    the [select] have been handled. *)
Inductive Outcome : Type :=
| Selecting
| Returned.

Section PollingLoop.

(** The text of an aggregate error: [Error()] applies the formatter of
    the [go-multierror] release in use to the list of causes
    ([Multierror.ListFormatFunc] in current releases). *)
Variable ErrorFormat : list string -> string.

(** One pass through the body of [for { select { ... } }] in [start]. *)
Definition start_select (sel : Select) : M unit :=
  match sel with
  | TimeAfter w =>
      m <- get ;;
      if connected m then
        let previousState := synced m in
        (* RPC calls *)
        err <- gatherMetrics w ;;
        match err with
        | Some es =>
            logger_Printf ("Export errors: " ++ ErrorFormat es) ;;
            (if GoStrings.Contains (ErrorFormat es) "connection refused"
             then logger_Printf "Node may be down" ;;
                  modify (set_connected false)
             else ret tt) ;;
            m <- get ;;
            if negb (Bool.eqb previousState (synced m))
            then fmt_Printf ("State changed. Is Synced?: "
                               ++ GoStrings.FormatBool (synced m)
                               ++ GoStrings.LF)
            else ret tt
        | None => ret tt
        end
      else
        (* setup APIS *)
        err <- setupApis w ;;
        match err with
        | Some err => logger_Printf ("Failed to connect to node: " ++ err)
        | None =>
            logger_Printf "Chain connected. Gathering metrics..." ;;
            modify (set_connected true)
        end
  | CtxDone => logger_Printf "Monitor shutting down"
  end.

(** [func (m *Monitor) start(ctx context.Context)], run until the given
    outcomes of its [select] have been handled.  Neither arm of the
    [select] returns or breaks out of the [for], so every outcome is
    followed by another [select]. *)
Fixpoint start (sels : list Select) : M Outcome :=
  match sels with
  | [] => ret Selecting
  | sel :: rest => start_select sel ;; start rest
  end.

End PollingLoop.

(* ================================================================= *)
(** ** Observations on traces and answers *)

(** The queries sent to the node and the explorer, in order. *)
Definition calls (t : list Event) : list Query :=
  flat_map (fun e => match e with Call q => [q] | _ => [] end) t.

(** The values a gauge was set to, in order. *)
Definition gauges (name : string) (t : list Event) : list GoFloat.float32 :=
  flat_map (fun e => match e with
                     | SetGaugeWithLabels [k] v _ =>
                         if (k =? name)%string then [v] else []
                     | _ => []
                     end) t.

(** What was written to standard output, and to the logger. *)
Definition printed (t : list Event) : list string :=
  flat_map (fun e => match e with FmtPrintf s => [s] | _ => [] end) t.

Definition logged (t : list Event) : list string :=
  flat_map (fun e => match e with LoggerPrintf s => [s] | _ => [] end) t.

(** Registration attempts (each one starts by building a Consul client)
    and pauses. *)
Definition attempts (t : list Event) : nat :=
  length (flat_map (fun e => match e with
                             | ConsulNewClient _ => [e]
                             | _ => []
                             end) t).

Definition sleeps (t : list Event) : list Z :=
  flat_map (fun e => match e with Sleep d => [d] | _ => [] end) t.

(** The number held by [blockNumber] after the block-number query. *)
Definition number_of (r : result GoInt.bigInt) : option GoInt.bigInt :=
  match r with Ok n => Some n | Err _ => None end.

(** The aggregate of a list of causes: [nil] when there is none. *)
Definition of_causes (es : list string) : error :=
  match es with [] => None | _ => Some es end.

(** The error [setupConsulImpl] returns for given answers. *)
Definition attempt_error (c : ConsulAnswers) : option string :=
  match NewClient c with
  | Some err => Some err
  | None => AgentServiceRegister c
  end.

(** The causes a round collects: the failures of the queries it makes,
    in the order it makes them. *)
Definition causes (w : Answers) : list string :=
  (failure (PeerCount w) ++ failure (BlockNumber w)
   ++ failure (BlockByNumber w (number_of (BlockNumber w)))
   ++ match BlockNumber w with
      | Ok _ => failure (EtherscanBlockNumber w)
      | Err _ => []
      end)%list.

(** Every query of a round is answered. *)
Definition all_answered (w : Answers) : bool :=
  is_Ok (PeerCount w) && is_Ok (BlockNumber w)
  && is_Ok (BlockByNumber w (number_of (BlockNumber w)))
  && is_Ok (EtherscanBlockNumber w).

(** How often a kind of query occurs in a trace. *)
Definition times (kind : Query -> bool) (t : list Event) : nat :=
  length (filter kind (calls t)).

Definition isPeerCount (q : Query) : bool :=
  match q with QPeerCount => true | _ => false end.
Definition isBlockNumber (q : Query) : bool :=
  match q with QBlockNumber => true | _ => false end.
Definition isBlockByNumber (q : Query) : bool :=
  match q with QBlockByNumber _ => true | _ => false end.
Definition isEtherscanBlockNumber (q : Query) : bool :=
  match q with QEtherscanBlockNumber => true | _ => false end.

(** The chains [setupApis] accepts. *)
Definition supported (r : result string) : Prop :=
  r = Ok "kovan" \/ r = Ok "foundation".

(** What a failed registration attempt leaves in the trace: the calls of
    the attempt, the log line, and the pause. *)
Definition failed_attempt (m : Monitor) (c : ConsulAnswers) : list Event :=
  (trace (setupConsulImpl c m)
   ++ match attempt_error c with
      | Some err =>
          [LoggerPrintf ("Failed to connect to consul: " ++ err);
           Sleep sleepDuration]
      | None => []
      end)%list.

(** The line printed when [synced] changes. *)
Definition state_changed (b : bool) : string :=
  "State changed. Is Synced?: " ++ GoStrings.FormatBool b ++ GoStrings.LF.

(* ================================================================= *)
(** ** Scenarios *)

Module Scenario.

Definition cfg : Config :=
  {| Endpoint := "http://127.0.0.1:8545";
     NodeName := "parity-0";
     BindAddr := "127.0.0.1";
     BindPort := 4000;
     RPCInterval := 5 * GoFloat.Second;
     SyncThreshold := 5;
     Consul := {| Address := "127.0.0.1:8500";
                  ServiceName := "parity";
                  Tags := ["ethereum"] |} |}.

(** A block every fifteen seconds. *)
Definition block_at (n : Z) : Block :=
  {| Number := n; Timestamp := n * 15 * GoFloat.Second |}.

(** A node on the main network at height [local] while the explorer
    reports [remote]. *)
Definition healthy (local remote : Z) : Answers :=
  {| Chain := Ok "foundation";
     PeerCount := Ok 25;
     BlockNumber := Ok local;
     BlockByNumber := fun n =>
       match n with
       | Some n => Ok (block_at n)
       | None => Err "missing block number"
       end;
     EtherscanBlockNumber := Ok remote |}.

(** The block-number query times out; the client answers a block query
    without a number with its latest block, number 101. *)
Definition number_fails : Answers :=
  {| Chain := Ok "foundation";
     PeerCount := Ok 25;
     BlockNumber := Err "eth_blockNumber: request timed out";
     BlockByNumber := fun _ => Ok (block_at 101);
     EtherscanBlockNumber := Ok 101 |}.

(** The node answers everything, the explorer cannot be reached. *)
Definition explorer_refused (local : Z) : Answers :=
  {| Chain := Ok "foundation";
     PeerCount := Ok 25;
     BlockNumber := Ok local;
     BlockByNumber := fun _ => Ok (block_at local);
     EtherscanBlockNumber :=
       Err "Get https://api.etherscan.io/api: dial tcp: connect: connection refused" |}.

(** The node is down. *)
Definition node_down : Answers :=
  {| Chain := Err "dial tcp 127.0.0.1:8545: connect: connection refused";
     PeerCount := Err "dial tcp 127.0.0.1:8545: connect: connection refused";
     BlockNumber := Err "dial tcp 127.0.0.1:8545: connect: connection refused";
     BlockByNumber := fun _ =>
       Err "dial tcp 127.0.0.1:8545: connect: connection refused";
     EtherscanBlockNumber := Ok 120 |}.

(** The node reports a chain the monitor does not know. *)
Definition ropsten : Answers :=
  {| Chain := Ok "ropsten";
     PeerCount := Ok 3;
     BlockNumber := Ok 7;
     BlockByNumber := fun _ => Ok (block_at 7);
     EtherscanBlockNumber := Ok 7 |}.

(** The monitor as [NewMonitor] leaves it, and once connected. *)
Definition fresh : Monitor := NewMonitor cfg.

Definition online (isSynced : bool) (last : option Block) : Monitor :=
  set_lastBlock last
    (set_synced isSynced
       (set_connected true
          (set_etherscan (Some foundation_url)
             (set_ethClient (Some (Endpoint cfg)) fresh)))).

(** A registry that refuses every attempt, and one that accepts from
    attempt [k] on (attempts are counted from 0). *)
Definition refusal : ConsulAnswers :=
  {| NewClient := None;
     AgentServiceRegister :=
       Some "Put http://127.0.0.1:8500/v1/agent/service/register: connection refused" |}.

Definition acceptance : ConsulAnswers :=
  {| NewClient := None; AgentServiceRegister := None |}.

Definition always_down : nat -> ConsulAnswers := fun _ => refusal.

Definition up_from (k : nat) : nat -> ConsulAnswers :=
  fun i => if (i <? k)%nat then refusal else acceptance.

End Scenario.

(* ================================================================= *)
(** ** Claims that fail on the code, as they are stated *)

(** In every round that reaches the lag computation, [synced] becomes
    the comparison of the absolute lag, the absolute difference of the two
    block numbers, with the threshold. *)
Definition lag_decides_synced : Prop :=
  forall (w : Answers) (m : Monitor) (local remote : GoInt.bigInt),
    BlockNumber w = Ok local ->
    EtherscanBlockNumber w = Ok remote ->
    synced (state (gatherMetrics w m))
    = (Z.abs (remote - local) <=? SyncThreshold (config m)).

(** The [blocksbehind] gauge equals the signed difference of the two
    block numbers, and the absolute value of that difference is compared
    with the threshold. *)
Definition blocksbehind_is_difference : Prop :=
  forall (w : Answers) (m : Monitor) (local remote : GoInt.bigInt),
    BlockNumber w = Ok local ->
    EtherscanBlockNumber w = Ok remote ->
    exists v,
      gauges "blocksbehind" (trace (gatherMetrics w m)) = [v] /\
      GoFloat.represents v (remote - local) = true /\
      synced (state (gatherMetrics w m))
      = (Z.abs (remote - local) <=? SyncThreshold (config m)).

(* ================================================================= *)
(** ** Construction of the monitor and telemetry *)

(** The fields of the [go-metrics] configuration the set-up code
    touches. *)
Record MetricsConfig : Type := {
  MetricsServiceName : string;
  HostName : string;
  EnableHostname : bool;
  EnableHostnameLabel : bool
}.

(** [metrics.DefaultConfig(serviceName)]: the library reports the host
    name (as found by the operating system) and adds no host-name
    label. *)
Definition metrics_DefaultConfig (serviceName hostname : string)
  : MetricsConfig :=
  {| MetricsServiceName := serviceName;
     HostName := hostname;
     EnableHostname := true;
     EnableHostnameLabel := false |}.

(** Metric sinks: the Prometheus sink and the in-memory sink with its
    interval and retention; what is installed globally is one sink or a
    [metrics.FanoutSink] of several. *)
Inductive Sink : Type :=
| PrometheusSink
| InmemSink (interval retain : Z).

Inductive GlobalSink : Type :=
| SingleSink (sink : Sink)
| FanoutSink (sinks : list Sink).

(** The goroutines the package starts. *)
Inductive Goroutine : Type :=
| Go_setupConsul
| Go_start
| Go_startRPC.

(** What construction does to the process. *)
Inductive SetupEvent : Type :=
| NewInmemSink (interval retain : Z)
| DefaultInmemSignal
| NewPrometheusSink
| NewGlobal (conf : MetricsConfig) (sink : GlobalSink)
| NewHttpServer (bindAddr : string) (bindPort : Z)
| Go (routine : Goroutine).

(** [func (m *Monitor) setupTelemetry()], which returns the in-memory sink
    or an error;
    [prom] is the error of [prometheus.NewPrometheusSink()] ([None] is
    [nil]). *)
Definition setupTelemetry (hostname : string) (prom : option string)
  : list SetupEvent * result Sink :=
  let memSink := InmemSink (10 * GoFloat.Second) GoFloat.Minute in
  let t := [NewInmemSink (10 * GoFloat.Second) GoFloat.Minute;
            DefaultInmemSignal] in
  let metricsConf := metrics_DefaultConfig "parity-pool" hostname in
  let metricsConf :=
    {| MetricsServiceName := MetricsServiceName metricsConf;
       HostName := HostName metricsConf;
       EnableHostname := EnableHostname metricsConf;
       EnableHostnameLabel := true |} in
  let sinks : list Sink := [] in
  let t := (t ++ [NewPrometheusSink])%list in
  match prom with
  | Some err => (t, Err err)
  | None =>
      let sinks := (sinks ++ [PrometheusSink])%list in
      if (0 <? length sinks)%nat then
        let sinks := (sinks ++ [memSink])%list in
        ((t ++ [NewGlobal metricsConf (FanoutSink sinks)])%list, Ok memSink)
      else
        let metricsConf :=
          {| MetricsServiceName := MetricsServiceName metricsConf;
             HostName := HostName metricsConf;
             EnableHostname := false;
             EnableHostnameLabel := EnableHostnameLabel metricsConf |} in
        ((t ++ [NewGlobal metricsConf (SingleSink memSink)])%list, Ok memSink)
  end.

Section Construction.

(** Whether [net.ParseIP] accepts a text ([false] when it returns
    [nil]); a parsed address is identified by the text it came from. *)
Variable ValidIP : string -> bool.


End Construction.

(* ================================================================= *)
(** ** The parity exporter *)

Module Exporter.

(** What the exporter does to the outside world. *)
Inductive Event : Type :=
| ParityNewClient (addr : string)
| ParityPeers
| SinkSetGauge (key : list string) (val : GoFloat.float32)
| Logged (msg : string).

(** [func (e *Exporter) rpcCalls() error]; [peers] is what the client
    answers, the number of connected peers or an error. *)
Definition rpcCalls (peers : result Z) : list Event * error :=
  let errors := Multierror.nil in
  match peers with
  | Err err => ([ParityPeers], Append errors err)
  | Ok connectedPeers =>
      ([ParityPeers;
        SinkSetGauge ["peers"] (GoFloat.float32_of_int connectedPeers)],
       errors)
  end.

(** What the [select] of [startRPC] receives: the five-second timer
    (with what the client answers in that iteration) or a value on
    [rcpStop]. *)
Inductive Select : Type :=
| TimeAfter (peers : result Z)
| RcpStop.

Section Loop.

Variable ErrorFormat : list string -> string.

(** The loop [for { select { ... } }] of [startRPC]. *)
Fixpoint startRPC_for (sels : list Select) : Outcome * list Event :=
  match sels with
  | [] => (Selecting, [])
  | TimeAfter peers :: rest =>
      let '(t, err) := rpcCalls peers in
      let t :=
        match err with
        | Some es =>
            (t ++ [Logged ("[ERR]: Failed to make rpc calls to parity: "
                           ++ ErrorFormat es)])%list
        | None => t
        end in
      let '(o, t') := startRPC_for rest in
      (o, (t ++ t')%list)
  | RcpStop :: _ => (Returned, [])
  end.

(** [func (e *Exporter) startRPC()] *)
Definition startRPC (parityAddr : string) (sels : list Select)
  : Outcome * list Event :=
  let '(o, t) := startRPC_for sels in
  (o, ParityNewClient parityAddr :: t).

End Loop.

(** [func (e *Exporter) setupTelemetry()], which returns the in-memory
    sink or an error *)
Definition setupTelemetry (nodeName hostname : string)
           (prom : option string) : list SetupEvent * result Sink :=
  let inm := InmemSink (10 * GoFloat.Second) GoFloat.Minute in
  let t := [NewInmemSink (10 * GoFloat.Second) GoFloat.Minute;
            DefaultInmemSignal] in
  let metricsConf := metrics_DefaultConfig "parity" hostname in
  let metricsConf :=
    {| MetricsServiceName := MetricsServiceName metricsConf;
       HostName := nodeName;
       EnableHostname := true;
       EnableHostnameLabel := EnableHostnameLabel metricsConf |} in
  let t := (t ++ [NewPrometheusSink])%list in
  match prom with
  | Some _ => (t, Ok inm)
  | None =>
      ((t ++ [NewGlobal metricsConf (SingleSink PrometheusSink)])%list, Ok inm)
  end.

(** [func NewExporter(config *Config)]: the result is
    the in-memory sink the exporter holds, or the error. *)
Definition NewExporter (nodeName hostname : string) (prom : option string)
  : list SetupEvent * result Sink :=
  let '(t, r) := setupTelemetry nodeName hostname prom in
  match r with
  | Err err => (t, Err err)
  | Ok inm => (t, Ok inm)
  end.

(** The part of an [http.Request] the handler reads: the method and the
    parsed query ([url.Values]). *)
Record Request : Type := {
  Method : string;
  Query : list (string * list string)
}.

(** [url.Values.Get]: the first value of the key, or the empty
    string. *)
Definition Values_Get (vs : list (string * list string)) (key : string)
  : string :=
  match find (fun kv => (fst kv =? key)%string) vs with
  | Some (_, v :: _) => v
  | _ => ""
  end.

(** What is done to the [http.ResponseWriter]. *)
Inductive Response : Type :=
| WriteHeader (code : Z)
| HeaderSet (key val : string)
| Write (body : string).

Section Http.

(** The objects handlers return, and [json.Marshal] on them. *)
Variable Obj : Type.
Variable Marshal : Obj -> result string.

(** The Prometheus handler writes its own response; the in-memory sink
    returns an object or an error ([DisplayMetrics]). *)
Variable PromServe : Request -> list Response.
Variable DisplayMetrics : Request -> option Obj * option string.

(** What a handler does: its own writes, the object and the error it
    returns. *)
Definition Handler : Type :=
  Request -> list Response * option Obj * option string.

Definition StatusInternalServerError : Z := 500.

(** [func (e *Exporter) wrap(handler) http.HandlerFunc] *)
Definition wrap (handler : Handler) (req : Request) : list Response :=
  let handleErr (err : string) :=
    [WriteHeader StatusInternalServerError; Write err] in
  let '(t, obj, err) := handler req in
  match err with
  | Some err => (t ++ handleErr err)%list
  | None =>
      match obj with
      | None => t
      | Some obj =>
          match Marshal obj with
          | Err err => (t ++ handleErr err)%list
          | Ok buf =>
              (t ++ [HeaderSet "Content-Type" "application/json";
                     Write buf])%list
          end
      end
  end.

(** [func (e *Exporter) MetricsRequest(resp, req) (interface{}, error)] *)
Definition MetricsRequest : Handler :=
  fun req =>
    if negb (Method req =? "GET")%string then
      ([], None,
       Some ("Incorrect method. Found " ++ Method req
             ++ ", only GET available"))
    else if (Values_Get (Query req) "format" =? "prometheus")%string then
      (PromServe req, None, None)
    else
      let '(obj, err) := DisplayMetrics req in ([], obj, err).

(** The handler [startHttp] mounts at [/metrics]:
    [e.wrap(e.MetricsRequest)]. *)
Definition metrics_handler : Request -> list Response :=
  wrap MetricsRequest.

End Http.

End Exporter.

(* ================================================================= *)
(** ** Further observations *)

(** The gauge events of a trace, and the polling-loop outcomes that are
    timer ticks. *)
Definition gauge_events (t : list Event) : list Event :=
  filter (fun e => match e with
                   | SetGaugeWithLabels _ _ _ => true
                   | _ => false
                   end) t.

Definition isChain (q : Query) : bool :=
  match q with QChain => true | _ => false end.

Definition ticks (sels : list Select) : nat :=
  length (filter (fun sel => match sel with
                             | TimeAfter _ => true
                             | CtxDone => false
                             end) sels).

(** The answers given on the timer ticks of a run. *)
Fixpoint tick_answers (sels : list Select) : list Answers :=
  match sels with
  | [] => []
  | TimeAfter w :: rest => w :: tick_answers rest
  | CtxDone :: rest => tick_answers rest
  end.

(** The mantissa of a positive integer brought to [prec] binary
    digits. *)
Definition normalized (prec : Z) (p : positive) : positive :=
  match (prec - Zpos (digits2_pos p))%Z with
  | Zpos k => Pos.iter xO p k
  | _ => p
  end.

(** The registrations sent to the registry. *)
Definition registrations (t : list Event) : list AgentServiceRegistration :=
  flat_map (fun e => match e with ServiceRegister s => [s] | _ => [] end) t.

(** The registration [setupConsulImpl] builds from a configuration. *)
Definition registration_of (cfg : Config) : AgentServiceRegistration :=
  {| ID := NodeName cfg;
     SvcName := ServiceName (Consul cfg);
     SvcTags := Tags (Consul cfg);
     SvcPort := 8545;
     SvcCheck :=
       {| CheckHTTP := "http://"
                         ++ (BindAddr cfg ++ ":"
                               ++ GoStrings.Itoa (BindPort cfg))
                         ++ "/synced";
          CheckInterval := "1s";
          CheckTimeout := "5s" |} |}.

(** The monitor is wired: a node client for the configured endpoint and
    one of the two explorers. *)
Definition wired (m : Monitor) : Prop :=
  ethClient m = Some (Endpoint (config m)) /\
  (etherscan m = Some kovan_url \/ etherscan m = Some foundation_url).

(** The exporter's peer queries, and the first stop among the outcomes
    of its [select]. *)
Definition peer_queries (t : list Exporter.Event) : nat :=
  length (filter (fun e => match e with
                           | Exporter.ParityPeers => true
                           | _ => false
                           end) t).

Fixpoint ticks_before_stop (sels : list Exporter.Select) : nat :=
  match sels with
  | [] => O
  | Exporter.TimeAfter _ :: rest => S (ticks_before_stop rest)
  | Exporter.RcpStop :: _ => O
  end.

Definition stops (sels : list Exporter.Select) : bool :=
  existsb (fun sel => match sel with
                      | Exporter.RcpStop => true
                      | _ => false
                      end) sels.

(* ================================================================= *)
(** ** Further scenarios *)

Module Cases.



(** Two ticks, the first failing, then a stop and a tick that comes too
    late. *)
Definition rpc_run : list Exporter.Select :=
  [Exporter.TimeAfter (Err "connection refused");
   Exporter.TimeAfter (Ok 3);
   Exporter.RcpStop;
   Exporter.TimeAfter (Ok 4)].

(** Requests to the metrics endpoint. *)
Definition post : Exporter.Request :=
  {| Exporter.Method := "POST"; Exporter.Query := [] |}.

Definition get_prometheus : Exporter.Request :=
  {| Exporter.Method := "GET";
     Exporter.Query := [("format", ["prometheus"; "json"])] |}.

Definition get_plain : Exporter.Request :=
  {| Exporter.Method := "GET"; Exporter.Query := [("pretty", ["1"])] |}.

(** Handlers' objects are texts that encode as themselves; the
    Prometheus handler writes a page, the in-memory sink returns a
    summary. *)
Definition marshal (obj : string) : result string := Ok obj.

Definition prom_page (req : Exporter.Request) : list Exporter.Response :=
  [Exporter.Write "# HELP parity_peers"].

Definition summary (req : Exporter.Request)
  : option string * option string :=
  (Some "{}", None).

(** A run in which the node first reports an unknown chain, the context
    is cancelled, and the node is then down. *)
Definition never_up : list Select :=
  [TimeAfter Scenario.ropsten; CtxDone; TimeAfter Scenario.node_down].

End Cases.

(* ================================================================= *)
(** ** Integer and floating-point conversions *)

Module GoIntFacts.
Import GoInt.

Lemma Int64_in_range (z : Z) : in_int64 z -> Int64 z = z.
Proof.
  unfold in_int64, minInt64, maxInt64, Int64, low64, wrap64,
    int64_of_uint64, two64.
  intros Hz.
  destruct (Z.ltb_spec z 0) as [Hneg | Hpos].
  - rewrite (Z.mod_small (Z.abs z)) by lia.
    destruct (Z.ltb_spec (Z.abs z) (2 ^ 63)) as [Hlt | Hge].
    + replace (- Z.abs z) with (z + 0) by lia.
      replace ((z + 0) mod 2 ^ 64) with (z + 2 ^ 64).
      * destruct (Z.ltb_spec (z + 2 ^ 64) (2 ^ 63)); lia.
      * rewrite Z.add_0_r.
        apply Z.mod_unique with (q := -1); lia.
    + assert (Hz' : z = - 2 ^ 63) by lia. subst z. reflexivity.
  - rewrite (Z.mod_small (Z.abs z)) by lia.
    destruct (Z.ltb_spec (Z.abs z) (2 ^ 63)); lia.
Qed.

Lemma Int64_Abs_in_range (z : Z) :
  Z.abs z <= maxInt64 -> Int64 (Abs z) = Z.abs z.
Proof.
  intros Hz. apply Int64_in_range.
  unfold in_int64, Abs, minInt64, maxInt64 in *. lia.
Qed.

End GoIntFacts.

Module GoFloatFacts.
Import GoFloat.

Lemma digits2_pos_size (p : positive) : digits2_pos p = Pos.size p.
Proof. induction p as [p IH | p IH |]; cbn; now rewrite ?IH. Qed.

Lemma digits2_pos_bound (p : positive) (n : Z) :
  0 <= n -> Zpos p < 2 ^ n -> Zpos (digits2_pos p) <= n.
Proof.
  intros Hn Hp. rewrite digits2_pos_size.
  pose proof (Pos.size_le p) as Hle.
  apply Pos2Z.pos_le_pos in Hle. rewrite Pos2Z.inj_pow in Hle.
  change (Zpos p~0) with (2 * Zpos p) in Hle.
  assert (H : 2 ^ Zpos (Pos.size p) < 2 ^ (n + 1)).
  { rewrite Z.pow_add_r by lia. change (2 ^ 1) with 2. lia. }
  apply Z.pow_lt_mono_r_iff in H; lia.
Qed.

Lemma iter_xO_value (p k : positive) :
  Zpos (Pos.iter xO p k) = Zpos p * 2 ^ Zpos k.
Proof.
  induction k as [|k IH] using Pos.peano_ind.
  - cbn. lia.
  - rewrite Pos.iter_succ, Pos2Z.inj_succ, Z.pow_succ_r by lia.
    rewrite Pos2Z.inj_xO, IH. lia.
Qed.

Lemma iter_xO_digits (p k : positive) :
  digits2_pos (Pos.iter xO p k) = (digits2_pos p + k)%positive.
Proof.
  induction k as [|k IH] using Pos.peano_ind.
  - cbn. lia.
  - rewrite Pos.iter_succ. cbn [digits2_pos]. rewrite IH. lia.
Qed.

(** A mantissa that already has the canonical exponent is left alone by
    the rounding step. *)
Lemma binary_round_aux_canonical (s : bool) (m : positive) (e : Z) :
  canonical_mantissa 24 128 m e = true -> e <= 104 ->
  binary_round_aux 24 128 s (Zpos m) e loc_Exact = S754_finite s m e.
Proof.
  unfold canonical_mantissa. intros Hc He. apply Z.eqb_eq in Hc.
  unfold binary_round_aux, shr_fexp. cbn [Zdigits2 shr_record_of_loc].
  rewrite Hc, Z.sub_diag. cbn [shr shr_m loc_of_shr_record round_nearest_even].
  cbn [Zdigits2]. rewrite Hc, Z.sub_diag. cbn [shr shr_m].
  destruct (Z.leb_spec e (128 - 24)); [reflexivity | lia].
Qed.

Lemma binary_round_small (s : bool) (p : positive) :
  Zpos p < 2 ^ 24 ->
  represents (binary_round 24 128 s p 0) (cond_Zopp s (Zpos p)) = true.
Proof.
  intros Hp.
  pose proof (digits2_pos_bound p 24 ltac:(lia) Hp) as Hd.
  unfold binary_round.
  assert (Hf : fexp 24 128 (Zpos (digits2_pos p) + 0)
               = Zpos (digits2_pos p) - 24).
  { unfold fexp, emin. lia. }
  rewrite Hf. unfold shl_align.
  destruct (Zpos (digits2_pos p) - 24 - 0) as [|q|q] eqn:Hq; try lia.
  - rewrite binary_round_aux_canonical.
    + unfold represents. change (0 <=? 0) with true. cbv iota.
      apply Z.eqb_eq. change (2 ^ 0) with 1. lia.
    + unfold canonical_mantissa. apply Z.eqb_eq. rewrite Hf. lia.
    + lia.
  - rewrite binary_round_aux_canonical.
    + unfold represents.
      destruct (Z.leb_spec 0 (Zpos (digits2_pos p) - 24)); [lia|].
      apply Z.eqb_eq. rewrite iter_xO_value.
      replace (- (Zpos (digits2_pos p) - 24)) with (Zpos q) by lia.
      destruct s; cbn [cond_Zopp]; lia.
    + unfold canonical_mantissa. apply Z.eqb_eq.
      rewrite iter_xO_digits. unfold fexp, emin. lia.
    + lia.
Qed.

(** Integers of magnitude at most [2^24] convert to [float32] without
    loss. *)
Lemma float32_of_int_exact (z : Z) :
  Z.abs z <= 2 ^ 24 -> represents (float32_of_int z) z = true.
Proof.
  intros Hz. unfold float32_of_int, binary_normalize.
  destruct z as [|p|p].
  - reflexivity.
  - destruct (Z.eq_dec (Zpos p) (2 ^ 24)) as [E|E].
    + injection E as ->. vm_compute. reflexivity.
    + apply (binary_round_small false). lia.
  - destruct (Z.eq_dec (Zpos p) (2 ^ 24)) as [E|E].
    + injection E as ->. vm_compute. reflexivity.
    + apply (binary_round_small true p). lia.
Qed.

End GoFloatFacts.

(* ================================================================= *)
(** ** One gathering round *)

Ltac run_round :=
  unfold gatherMetrics, ask, SetGauge, bind, ret, emit, get, modify,
    value, state, trace, number_of, causes, times;
  repeat (cbn;
          match goal with
          | |- context [match ?r with Ok _ => _ | Err _ => _ end] =>
              destruct r eqn:?
          | |- context [match lastBlock ?m with Some _ => _ | None => _ end] =>
              destruct (lastBlock m) eqn:?
          | |- context [if ?b then _ else _] => destruct b eqn:?
          end);
  cbn; try reflexivity.

Section GatheringRound.

#[local] Opaque GoFloat.float32_of_int GoFloat.float32_of_float64
  GoFloat.Seconds GoFloat.Time_Sub GoInt.Int64 blocksDiff_of Z.leb.

Variables (w : Answers) (m : Monitor).

(** A round writes [lastBlock] and [synced] and nothing else. *)
Lemma gatherMetrics_frame :
  let m' := state (gatherMetrics w m) in
  config m' = config m /\ chain m' = chain m /\
  etherscan m' = etherscan m /\ ethClient m' = ethClient m /\
  connected m' = connected m /\ baseLabels m' = baseLabels m.
Proof. run_round; repeat split. Qed.

Lemma gatherMetrics_lastBlock :
  lastBlock (state (gatherMetrics w m)) =
  match BlockByNumber w (number_of (BlockNumber w)) with
  | Ok block => Some block
  | Err _ => lastBlock m
  end.
Proof. run_round. Qed.

Lemma gatherMetrics_synced :
  synced (state (gatherMetrics w m)) =
  match BlockNumber w, EtherscanBlockNumber w with
  | Ok blockNumber, Ok realBlockNumber =>
      blocksDiff_of (GoInt.Sub realBlockNumber blockNumber)
        <=? SyncThreshold (config m)
  | _, _ => synced m
  end.
Proof. run_round. Qed.

Lemma gatherMetrics_value :
  value (gatherMetrics w m) = of_causes (causes w).
Proof. run_round. Qed.

Lemma gatherMetrics_calls :
  calls (trace (gatherMetrics w m)) =
  ([QPeerCount; QBlockNumber; QBlockByNumber (number_of (BlockNumber w))]
   ++ match BlockNumber w with
      | Ok _ => [QEtherscanBlockNumber]
      | Err _ => []
      end)%list.
Proof. run_round. Qed.

Lemma gatherMetrics_blocksbehind :
  gauges "blocksbehind" (trace (gatherMetrics w m)) =
  match BlockNumber w, EtherscanBlockNumber w with
  | Ok blockNumber, Ok realBlockNumber =>
      [GoFloat.float32_of_int
         (GoInt.Int64 (GoInt.Sub realBlockNumber blockNumber))]
  | _, _ => []
  end.
Proof. run_round. Qed.

Lemma gatherMetrics_blocktime :
  gauges "blocktime" (trace (gatherMetrics w m)) =
  match BlockByNumber w (number_of (BlockNumber w)), lastBlock m with
  | Ok block, Some last =>
      [GoFloat.float32_of_float64
         (GoFloat.Seconds (GoFloat.Time_Sub (Timestamp block)
                                            (Timestamp last)))]
  | _, _ => []
  end.
Proof. run_round. Qed.

(** A round neither logs nor prints. *)
Lemma gatherMetrics_silent :
  printed (trace (gatherMetrics w m)) = [] /\
  logged (trace (gatherMetrics w m)) = [].
Proof. run_round; split; reflexivity. Qed.

(** When the block-number query fails, the explorer is left alone and
    [synced] keeps its value, but the block query is still sent, without
    a number, and its answer decides what happens to [lastBlock]. *)
Lemma gatherMetrics_without_number (err : string) :
  BlockNumber w = Err err ->
  calls (trace (gatherMetrics w m))
  = [QPeerCount; QBlockNumber; QBlockByNumber None] /\
  gauges "blocksbehind" (trace (gatherMetrics w m)) = [] /\
  synced (state (gatherMetrics w m)) = synced m /\
  lastBlock (state (gatherMetrics w m))
  = match BlockByNumber w None with
    | Ok block => Some block
    | Err _ => lastBlock m
    end.
Proof.
  intros H.
  rewrite gatherMetrics_calls, gatherMetrics_blocksbehind,
    gatherMetrics_synced, gatherMetrics_lastBlock, H.
  repeat split.
Qed.

End GatheringRound.

(* ================================================================= *)
(** ** Substrings *)

Module GoStringsFacts.
Import GoStrings.

Lemma prefix_app (p s t : string) :
  String.prefix p s = true -> String.prefix p (s ++ t) = true.
Proof.
  revert s. induction p as [|c p IH]; intros s H.
  { now destruct (s ++ t)%string. }
  destruct s as [|d s]; cbn in *; [discriminate|].
  destruct (Ascii.ascii_dec c d); [auto | discriminate].
Qed.

Lemma Contains_app_l (s t sub : string) :
  Contains s sub = true -> Contains (s ++ t) sub = true.
Proof.
  induction s as [|c s IH]; cbn [Contains]; intros H.
  - destruct (String.prefix sub "") eqn:Hp; [|discriminate].
    destruct sub; [|discriminate]. destruct t; reflexivity.
  - change (String c s ++ t)%string with (String c (s ++ t)).
    cbn [Contains].
    destruct (String.prefix sub (String c s)) eqn:Hp.
    + change (String c (s ++ t)) with (String c s ++ t)%string.
      now rewrite (prefix_app _ _ t Hp).
    + rewrite (IH H). now destruct (String.prefix sub (String c (s ++ t))).
Qed.

Lemma Contains_app_r (s t sub : string) :
  Contains t sub = true -> Contains (s ++ t) sub = true.
Proof.
  intros H. induction s as [|c s IH]; [exact H|].
  change (String c s ++ t)%string with (String c (s ++ t)).
  cbn [Contains]. rewrite IH.
  now destruct (String.prefix sub (String c (s ++ t))).
Qed.

Lemma Contains_Join (elems : list string) (sep e sub : string) :
  In e elems -> Contains e sub = true ->
  Contains (Join elems sep) sub = true.
Proof.
  intros Hin He. induction elems as [|x rest IH]; [contradiction|].
  destruct rest as [|y rest'].
  - destruct Hin as [-> | []]. exact He.
  - change (Join (x :: y :: rest') sep)
      with (x ++ sep ++ Join (y :: rest') sep)%string.
    destruct Hin as [-> | Hin].
    + now apply Contains_app_l.
    + apply Contains_app_r, Contains_app_r. now apply IH.
Qed.

(** The text of an aggregate mentions each of its causes. *)
Lemma ListFormatFunc_mentions (es : list string) (e sub : string) :
  In e es -> Contains e sub = true ->
  Contains (Multierror.ListFormatFunc es) sub = true.
Proof.
  intros Hin He.
  assert (Hmany :
    Contains (Itoa (Z.of_nat (length es)) ++ " errors occurred:"
              ++ LF ++ TAB
              ++ Join (map (fun e => "* " ++ e) es) (LF ++ TAB)
              ++ LF ++ LF) sub = true).
  { do 4 apply Contains_app_r. apply Contains_app_l.
    apply Contains_Join with (e := ("* " ++ e)%string).
    - apply in_map_iff. now exists e.
    - now apply Contains_app_r. }
  destruct es as [|x [|y rest]]; [contradiction | | exact Hmany].
  destruct Hin as [-> | []]. unfold Multierror.ListFormatFunc.
  do 4 apply Contains_app_r. now apply Contains_app_l.
Qed.

End GoStringsFacts.

(* ================================================================= *)
(** ** The polling loop *)

Section PollingLoopFacts.

Variable F : list string -> string.

#[local] Opaque gatherMetrics GoStrings.Contains.

(** A tick while connected runs one round; the aggregate error decides
    what else happens. *)
Lemma start_select_connected (w : Answers) (m : Monitor) :
  connected m = true ->
  let r := gatherMetrics w m in
  state (start_select F (TimeAfter w) m)
  = match value r with
    | Some es =>
        if GoStrings.Contains (F es) "connection refused"
        then set_connected false (state r)
        else state r
    | None => state r
    end
  /\ trace (start_select F (TimeAfter w) m)
  = (trace r
     ++ match value r with
        | Some es =>
            [LoggerPrintf ("Export errors: " ++ F es)]
            ++ (if GoStrings.Contains (F es) "connection refused"
                then [LoggerPrintf "Node may be down"] else [])
            ++ (if negb (Bool.eqb (synced m) (synced (state r)))
                then [FmtPrintf (state_changed (synced (state r)))]
                else [])
        | None => []
        end)%list.
Proof.
  intros Hc r. subst r.
  unfold start_select, bind, get, value, state, trace. rewrite Hc.
  destruct (gatherMetrics w m) as [[err m1] t1]. cbn.
  destruct err as [es|]; cbn; [|now rewrite app_nil_r].
  destruct (GoStrings.Contains (F es) "connection refused"); cbn;
    destruct (negb (Bool.eqb (synced m) (synced m1))); cbn; split; reflexivity.
Qed.


(** A tick while disconnected probes the chain; nothing else is asked. *)
Lemma start_select_disconnected (w : Answers) (m : Monitor) :
  connected m = false ->
  let r := start_select F (TimeAfter w) m in
  calls (trace r) = [QChain] /\
  (forall name, gauges name (trace r) = []) /\
  printed (trace r) = [] /\
  synced (state r) = synced m /\
  lastBlock (state r) = lastBlock m /\
  ethClient (state r) = Some (Endpoint (config m)) /\
  connected (state r)
  = match Chain w with
    | Ok c => ((c =? "kovan") || (c =? "foundation"))%string
    | Err _ => false
    end /\
  etherscan (state r)
  = match Chain w with
    | Ok c => if (c =? "kovan")%string then Some kovan_url
              else if (c =? "foundation")%string then Some foundation_url
              else etherscan m
    | Err _ => etherscan m
    end.
Proof.
  intros Hc r. subst r.
  unfold start_select, setupApis, ask, logger_Printf, bind, ret, emit, get,
    modify, value, state, trace.
  rewrite Hc. cbn.
  destruct (Chain w) as [c|err]; cbn; [|now repeat split].
  destruct (c =? "kovan")%string; cbn; [now repeat split|].
  destruct (c =? "foundation")%string; cbn; now repeat split.
Qed.

(** Cancellation is logged and changes nothing. *)
Lemma start_select_CtxDone (m : Monitor) :
  start_select F CtxDone m = (tt, m, [LoggerPrintf "Monitor shutting down"]).
Proof. reflexivity. Qed.

Lemma start_cons (sel : Select) (rest : list Select) (m : Monitor) :
  start F (sel :: rest) m
  = (value (start F rest (state (start_select F sel m))),
     state (start F rest (state (start_select F sel m))),
     (trace (start_select F sel m)
      ++ trace (start F rest (state (start_select F sel m))))%list).
Proof.
  cbn [start]. unfold bind, value, state, trace.
  destruct (start_select F sel m) as [[u m1] t1]. cbn.
  now destruct (start F rest m1) as [[o m2] t2].
Qed.

(** However many outcomes of the [select] have been handled, the loop
    is at its [select] again. *)
Lemma start_Selecting (sels : list Select) (m : Monitor) :
  value (start F sels m) = Selecting.
Proof.
  revert m. induction sels as [|sel rest IH]; intros m; [reflexivity|].
  rewrite start_cons. unfold value at 1. cbn. apply IH.
Qed.

Lemma start_app (pre post : list Select) (m : Monitor) :
  state (start F (pre ++ post) m) = state (start F post (state (start F pre m)))
  /\ trace (start F (pre ++ post) m)
     = (trace (start F pre m)
        ++ trace (start F post (state (start F pre m))))%list.
Proof.
  revert m. induction pre as [|sel pre IH]; intros m.
  - now split.
  - change ((sel :: pre) ++ post)%list with (sel :: (pre ++ post))%list.
    rewrite !start_cons. specialize (IH (state (start_select F sel m))).
    unfold state, trace in *. cbn [fst snd] in *.
    destruct IH as [-> ->].
    split; [reflexivity | now rewrite app_assoc].
Qed.

End PollingLoopFacts.

(* ================================================================= *)
(** ** The registration loop *)

Section RegistrationFacts.

Variables (registry : nat -> ConsulAnswers) (m : Monitor).

Lemma attempts_app (t u : list Event) :
  attempts (t ++ u) = (attempts t + attempts u)%nat.
Proof. unfold attempts. now rewrite flat_map_app, length_app. Qed.

Lemma sleeps_app (t u : list Event) :
  sleeps (t ++ u) = (sleeps t ++ sleeps u)%list.
Proof. unfold sleeps. now rewrite flat_map_app. Qed.

(** An attempt builds one client, registers if that worked, and leaves
    the monitor as it was. *)
Lemma setupConsulImpl_spec (c : ConsulAnswers) :
  value (setupConsulImpl c m) = attempt_error c /\
  state (setupConsulImpl c m) = m /\
  attempts (trace (setupConsulImpl c m)) = 1%nat /\
  sleeps (trace (setupConsulImpl c m)) = [].
Proof.
  unfold setupConsulImpl, attempt_error, bind, ret, emit, get, value, state,
    trace.
  cbn. destruct (NewClient c); cbn; [now repeat split|].
  destruct (AgentServiceRegister c); cbn; now repeat split.
Qed.

Lemma failed_attempt_counts (c : ConsulAnswers) :
  attempt_error c <> None ->
  attempts (failed_attempt m c) = 1%nat /\
  sleeps (failed_attempt m c) = [sleepDuration].
Proof.
  intros Hc. unfold failed_attempt.
  destruct (setupConsulImpl_spec c) as (_ & _ & Ha & Hs).
  rewrite attempts_app, sleeps_app, Ha, Hs.
  destruct (attempt_error c); [now split | contradiction].
Qed.

Lemma failed_attempts_counts (l : list nat) :
  (forall i, In i l -> attempt_error (registry i) <> None) ->
  attempts (flat_map (fun i => failed_attempt m (registry i)) l) = length l /\
  sleeps (flat_map (fun i => failed_attempt m (registry i)) l)
  = repeat sleepDuration (length l).
Proof.
  induction l as [|i l IH]; intros Hl; [now split|].
  cbn [flat_map length repeat].
  destruct (failed_attempt_counts (registry i)) as [Ha Hs].
  { apply Hl. now left. }
  destruct IH as [IHa IHs]. { intros j Hj. apply Hl. now right. }
  rewrite attempts_app, sleeps_app, Ha, Hs, IHa, IHs. now split.
Qed.

(** One pass of the loop body. *)
Lemma setupConsul_for_step (remaining i : nat) :
  setupConsul_for (S remaining) i registry m
  = match attempt_error (registry i) with
    | None =>
        (tt, m, (trace (setupConsulImpl (registry i) m)
                 ++ [LoggerPrintf "Service registred in consul"])%list)
    | Some _ =>
        (tt, state (setupConsul_for remaining (S i) registry m),
         (failed_attempt m (registry i)
          ++ trace (setupConsul_for remaining (S i) registry m))%list)
    end.
Proof.
  cbn [setupConsul_for]. unfold bind at 1, failed_attempt.
  destruct (setupConsulImpl_spec (registry i)) as (Hv & Hs & _).
  destruct (setupConsulImpl (registry i) m) as [[err m1] t1].
  unfold value, state, trace in *. cbn [fst snd] in *. subst m1 err.
  destruct (attempt_error (registry i)) as [err|]; [|reflexivity].
  unfold bind, logger_Printf, emit. cbn.
  destruct (setupConsul_for remaining (S i) registry m) as [[[] m2] t2].
  cbn. now rewrite <- app_assoc.
Qed.

Lemma setupConsul_for_state (remaining i : nat) :
  state (setupConsul_for remaining i registry m) = m.
Proof.
  revert i. induction remaining as [|n IH]; intros i; [reflexivity|].
  rewrite setupConsul_for_step.
  destruct (attempt_error (registry i)); [apply IH | reflexivity].
Qed.

(** Persistent failure: every remaining iteration is a failed attempt. *)
Lemma setupConsul_for_exhausted (remaining i : nat) :
  (forall j, (i <= j < i + remaining)%nat ->
             attempt_error (registry j) <> None) ->
  trace (setupConsul_for remaining i registry m)
  = (flat_map (fun j => failed_attempt m (registry j)) (seq i remaining)
     ++ [LoggerPrintf "Stop trying to register on consul"])%list.
Proof.
  revert i. induction remaining as [|n IH]; intros i Hf; [reflexivity|].
  rewrite setupConsul_for_step.
  destruct (attempt_error (registry i)) eqn:He.
  - unfold trace at 1. cbn [snd seq flat_map].
    rewrite IH, <- app_assoc; [reflexivity|].
    intros j Hj. apply Hf. lia.
  - exfalso. apply (Hf i); [lia | exact He].
Qed.

(** Success at the [k]-th remaining iteration ends the loop there. *)
Lemma setupConsul_for_registered (k remaining i : nat) :
  (k < remaining)%nat ->
  (forall j, (i <= j < i + k)%nat -> attempt_error (registry j) <> None) ->
  attempt_error (registry (i + k)) = None ->
  trace (setupConsul_for remaining i registry m)
  = (flat_map (fun j => failed_attempt m (registry j)) (seq i k)
     ++ trace (setupConsulImpl (registry (i + k)) m)
     ++ [LoggerPrintf "Service registred in consul"])%list.
Proof.
  revert remaining i.
  induction k as [|k IH]; intros remaining i Hk Hf Hs;
    (destruct remaining as [|n]; [lia|]); rewrite setupConsul_for_step.
  - rewrite Nat.add_0_r in Hs. rewrite Hs. rewrite Nat.add_0_r. reflexivity.
  - destruct (attempt_error (registry i)) eqn:He.
    + unfold trace at 1. cbn [snd seq flat_map].
      rewrite (IH n (S i)), <- app_assoc.
      * now replace (S i + k)%nat with (i + S k)%nat by lia.
      * lia.
      * intros j Hj. apply Hf. lia.
      * now replace (S i + k)%nat with (i + S k)%nat by lia.
    + exfalso. apply (Hf i); [lia | exact He].
Qed.

End RegistrationFacts.

(* ================================================================= *)
(** ** The claims *)

(** C1 (defect in the code).  When the block-number query fails the
    round is meant to skip the block query and the explorer query, emit
    neither [blocktime] nor [blocksbehind] and leave [lastBlock] alone.
    Only the explorer query is guarded by [blockNumber != nil]: the block
    query is sent without a number, and when the client answers it the
    round emits [blocktime] and overwrites [lastBlock]. *)
Theorem block_query_sent_without_number :
  let m := Scenario.online true (Some (Scenario.block_at 100)) in
  let r := gatherMetrics Scenario.number_fails m in
  BlockNumber Scenario.number_fails = Err "eth_blockNumber: request timed out" /\
  calls (trace r) = [QPeerCount; QBlockNumber; QBlockByNumber None] /\
  gauges "blocktime" (trace r) = [GoFloat.float32_of_int 15] /\
  lastBlock m = Some (Scenario.block_at 100) /\
  lastBlock (state r) = Some (Scenario.block_at 101) /\
  gauges "blocksbehind" (trace r) = [].
Proof. vm_compute. repeat split. Qed.

(** What is reported about [synced] on a tick taken while connected: a
    line is printed exactly when the round returned an error and the
    value changed. *)
Lemma transition_report (F : list string -> string) (w : Answers)
      (m : Monitor) :
  connected m = true ->
  let r := gatherMetrics w m in
  printed (trace (start_select F (TimeAfter w) m))
  = match value r with
    | Some _ =>
        if negb (Bool.eqb (synced m) (synced (state r)))
        then [state_changed (synced (state r))]
        else []
    | None => []
    end
  /\ synced (state (start_select F (TimeAfter w) m)) = synced (state r).
Proof.
  intros Hc r. destruct (start_select_connected F w m Hc) as [Hs Ht].
  fold r in Hs, Ht. rewrite Hs, Ht. clear Hs Ht.
  unfold printed. rewrite flat_map_app.
  destruct (gatherMetrics_silent w m) as [Hp _]. fold r in Hp.
  unfold printed in Hp. rewrite Hp. cbn [app].
  destruct (value r) as [es|]; [|now split].
  destruct (GoStrings.Contains (F es) "connection refused");
    destruct (negb (Bool.eqb (synced m) (synced (state r)))); now split.
Qed.

(** C2 (defect in the code).  A change of [synced] is meant to be
    reported once, whatever the round returned.  The report sits inside
    the branch taken when the round returned an error: after a round
    without error, here the one that brings [synced] from false to true,
    nothing is printed. *)
Theorem synced_change_unreported_after_clean_round :
  let m := Scenario.online false (Some (Scenario.block_at 99)) in
  let w := Scenario.healthy 100 100 in
  let r := start_select Multierror.ListFormatFunc (TimeAfter w) m in
  connected m = true /\
  value (gatherMetrics w m) = None /\
  synced m = false /\
  synced (state r) = true /\
  printed (trace r) = [].
Proof. vm_compute. repeat split. Qed.

(** C3 (defect in the code).  Cancellation is meant to stop the loop.
    The arm for [ctx.Done()] logs and falls through to the next
    iteration: the loop is at its [select] again after any outcomes, and
    what follows a cancellation is handled as if it had not happened. *)
Theorem start_outlives_cancellation (F : list string -> string)
        (pre post : list Select) (m : Monitor) :
  start F [CtxDone] m
  = (Selecting, m, [LoggerPrintf "Monitor shutting down"]) /\
  value (start F (pre ++ CtxDone :: post) m) = Selecting /\
  state (start F (CtxDone :: post) m) = state (start F post m) /\
  trace (start F (CtxDone :: post) m)
  = LoggerPrintf "Monitor shutting down" :: trace (start F post m).
Proof.
  split; [reflexivity|]. split; [apply start_Selecting|].
  rewrite start_cons, start_select_CtxDone. now split.
Qed.

(** C4, as stated, fails: with the node at block 0, the explorer at
    block [2^64] and a threshold of 5, the lag the round computes is the
    low 64 bits of the difference, 0, and [synced] becomes true. *)
Lemma lag_decides_synced_fails :
  ~ lag_decides_synced /\
  synced (state (gatherMetrics (Scenario.healthy 0 (2 ^ 64))
                               (Scenario.online false None))) = true /\
  (Z.abs (2 ^ 64 - 0) <=? SyncThreshold Scenario.cfg) = false.
Proof.
  split; [|split; reflexivity].
  intros H.
  specialize (H (Scenario.healthy 0 (2 ^ 64)) (Scenario.online false None)
                0 (2 ^ 64) eq_refl eq_refl).
  vm_compute in H. discriminate H.
Qed.

(** C4 (amended).  In every round that reaches the lag computation and
    whose absolute lag fits an [int] (it is at most [2^63 - 1]), [synced]
    becomes the comparison of the absolute lag with the threshold, the
    threshold included: a lag equal to the threshold gives true, a lag one
    above it gives false.  In every round that reaches the lag
    computation, what is compared is the [int] the round computes. *)
Theorem synced_is_lag_within_threshold (w : Answers) (m : Monitor)
        (local remote : GoInt.bigInt) :
  BlockNumber w = Ok local ->
  EtherscanBlockNumber w = Ok remote ->
  let lag := Z.abs (remote - local) in
  let threshold := SyncThreshold (config m) in
  let synced' := synced (state (gatherMetrics w m)) in
  synced' = (blocksDiff_of (GoInt.Sub remote local) <=? threshold) /\
  (lag <= GoInt.maxInt64 ->
   synced' = (lag <=? threshold) /\
   (lag = threshold -> synced' = true) /\
   (lag = threshold + 1 -> synced' = false)).
Proof.
  intros Hl Hr lag threshold synced'. subst synced'.
  rewrite gatherMetrics_synced, Hl, Hr. fold threshold.
  split; [reflexivity|]. intros Hfit.
  unfold blocksDiff_of, GoInt.int, GoInt.Sub.
  rewrite GoIntFacts.Int64_Abs_in_range by exact Hfit. fold lag.
  split; [reflexivity|]. split.
  - intros ->. apply Z.leb_refl.
  - intros ->. apply Z.leb_gt. lia.
Qed.

Lemma synced_is_lag_within_threshold_witness :
  synced (state (gatherMetrics (Scenario.healthy 95 100)
                               (Scenario.online false None))) = true /\
  synced (state (gatherMetrics (Scenario.healthy 94 100)
                               (Scenario.online true None))) = false.
Proof.
  split.
  - destruct (synced_is_lag_within_threshold
                (Scenario.healthy 95 100) (Scenario.online false None)
                95 100 eq_refl eq_refl) as (_ & H).
    apply H; [vm_compute; discriminate | reflexivity].
  - destruct (synced_is_lag_within_threshold
                (Scenario.healthy 94 100) (Scenario.online true None)
                94 100 eq_refl eq_refl) as (_ & H).
    apply H; [vm_compute; discriminate | reflexivity].
Defined.

(** C5.  On a tick taken while disconnected no gathering round runs:
    the only query is the chain probe and no gauge is set.  [connected]
    becomes true exactly when the probe answers kovan or foundation, and
    the explorer is then the one of that chain; any other chain and any
    failed probe leave [connected] false.  No other outcome of the
    [select] connects. *)
Theorem disconnected_tick_only_probes (F : list string -> string)
        (sel : Select) (m : Monitor) :
  connected m = false ->
  let r := start_select F sel m in
  (forall q, In q (calls (trace r)) -> q = QChain) /\
  (forall name, gauges name (trace r) = []) /\
  (connected (state r) = true <->
   exists w, sel = TimeAfter w /\ supported (Chain w)) /\
  (forall w, sel = TimeAfter w ->
     calls (trace r) = [QChain] /\
     (Chain w = Ok "kovan" -> etherscan (state r) = Some kovan_url) /\
     (Chain w = Ok "foundation" ->
      etherscan (state r) = Some foundation_url) /\
     (~ supported (Chain w) ->
      connected (state r) = false /\ etherscan (state r) = etherscan m)).
Proof.
  intros Hc r. subst r. destruct sel as [w|].
  - destruct (start_select_disconnected F w m Hc)
      as (Hcalls & Hg & _ & _ & _ & _ & Hconn & Heth).
    rewrite Hcalls, Hconn, Heth. unfold supported.
    split; [intros q [<- | []]; reflexivity|]. split; [exact Hg|]. split.
    + split.
      * intros H. exists w. split; [reflexivity|].
        destruct (Chain w) as [c|]; [|discriminate].
        apply Bool.orb_true_iff in H.
        destruct H as [H | H]; apply String.eqb_eq in H; subst; auto.
      * intros (w' & [= <-] & [-> | ->]); reflexivity.
    + intros w' [= <-]. split; [reflexivity|].
      split; [now intros -> |]. split; [now intros -> |].
      intros Hn. destruct (Chain w) as [c|]; [|now split].
      destruct (String.eqb_spec c "kovan") as [E | _].
      { exfalso. apply Hn. left. now rewrite E. }
      destruct (String.eqb_spec c "foundation") as [E | _].
      { exfalso. apply Hn. right. now rewrite E. }
      now split.
  - rewrite start_select_CtxDone. cbn.
    split; [intros q []|]. split; [reflexivity|]. split.
    + rewrite Hc. split; [discriminate | now intros (w & [=] & _)].
    + intros w [=].
Qed.

Lemma disconnected_tick_only_probes_witness :
  connected (state (start_select Multierror.ListFormatFunc
                      (TimeAfter (Scenario.healthy 100 100))
                      Scenario.fresh)) = true /\
  connected (state (start_select Multierror.ListFormatFunc
                      (TimeAfter Scenario.ropsten)
                      Scenario.fresh)) = false.
Proof.
  split.
  - apply (disconnected_tick_only_probes Multierror.ListFormatFunc
             (TimeAfter (Scenario.healthy 100 100)) Scenario.fresh);
      [reflexivity|].
    exists (Scenario.healthy 100 100). split; [reflexivity | now right].
  - destruct (disconnected_tick_only_probes Multierror.ListFormatFunc
                (TimeAfter Scenario.ropsten) Scenario.fresh eq_refl)
      as (_ & _ & _ & H).
    destruct (H Scenario.ropsten eq_refl) as (_ & _ & _ & H').
    apply H'. intros [H0 | H0]; discriminate H0.
Defined.

(** C6.  Whatever queries succeed or fail, a round runs to its end:
    the peer-count, block-number and block queries are each sent exactly
    once, the explorer query exactly once when there is a block number to
    compare with, every failure of a query that was sent is collected, in
    order, and the round returns the [nil] error exactly when every query
    was answered. *)
Theorem round_collects_every_failure (w : Answers) (m : Monitor) :
  let r := gatherMetrics w m in
  times isPeerCount (trace r) = 1%nat /\
  times isBlockNumber (trace r) = 1%nat /\
  times isBlockByNumber (trace r) = 1%nat /\
  times isEtherscanBlockNumber (trace r)
  = (if is_Ok (BlockNumber w) then 1%nat else 0%nat) /\
  value r = of_causes (causes w) /\
  (value r = None <-> all_answered w = true).
Proof.
  intros r. subst r. unfold times.
  rewrite gatherMetrics_calls, gatherMetrics_value.
  unfold causes, all_answered, number_of.
  destruct (PeerCount w), (BlockNumber w) as [n|];
    [ destruct (BlockByNumber w (Some n)), (EtherscanBlockNumber w)
    | destruct (BlockByNumber w None), (EtherscanBlockNumber w)
    | destruct (BlockByNumber w (Some n)), (EtherscanBlockNumber w)
    | destruct (BlockByNumber w None), (EtherscanBlockNumber w) ];
    cbn; repeat split; intros; discriminate.
Qed.

Lemma round_collects_every_failure_witness :
  value (gatherMetrics Scenario.node_down (Scenario.online true None))
  = Some ["dial tcp 127.0.0.1:8545: connect: connection refused";
          "dial tcp 127.0.0.1:8545: connect: connection refused";
          "dial tcp 127.0.0.1:8545: connect: connection refused"] /\
  value (gatherMetrics (Scenario.healthy 100 100)
                       (Scenario.online true None)) = None.
Proof.
  split.
  - apply (round_collects_every_failure
             Scenario.node_down (Scenario.online true None)).
  - apply (round_collects_every_failure
             (Scenario.healthy 100 100) (Scenario.online true None)).
    reflexivity.
Defined.

(** C7.  The registration loop makes at most five attempts, one minute
    apart.  When every attempt fails there are exactly five, each followed
    by the log line and a pause of one minute, then the loop logs that it
    gives up and returns.  When attempt [k] (counted from 0, so [k < 5])
    is the first to succeed there are exactly [k + 1] attempts: the [k]
    failed ones, each with its pause, then the successful one, after which
    the loop logs and returns.  The monitor's state is not touched. *)
Theorem setupConsul_bounded_retry (registry : nat -> ConsulAnswers)
        (m : Monitor) :
  let r := setupConsul registry m in
  retries = 5%nat /\ sleepDuration = 60000000000 /\ state r = m /\
  ((forall i, (i < retries)%nat -> attempt_error (registry i) <> None) ->
   trace r
   = (flat_map (fun i => failed_attempt m (registry i)) (seq 0 retries)
      ++ [LoggerPrintf "Stop trying to register on consul"])%list /\
   attempts (trace r) = 5%nat /\
   sleeps (trace r) = repeat sleepDuration 5) /\
  (forall k, (k < retries)%nat ->
     (forall i, (i < k)%nat -> attempt_error (registry i) <> None) ->
     attempt_error (registry k) = None ->
     trace r
     = (flat_map (fun i => failed_attempt m (registry i)) (seq 0 k)
        ++ trace (setupConsulImpl (registry k) m)
        ++ [LoggerPrintf "Service registred in consul"])%list /\
     attempts (trace r) = S k /\
     sleeps (trace r) = repeat sleepDuration k).
Proof.
  intros r. subst r. unfold setupConsul.
  split; [reflexivity|]. split; [reflexivity|].
  split; [apply setupConsul_for_state|]. split.
  - intros Hf.
    rewrite (setupConsul_for_exhausted registry m retries 0)
      by (intros j Hj; apply Hf; lia).
    split; [reflexivity|].
    destruct (failed_attempts_counts registry m (seq 0 retries)) as [Ha Hs].
    { intros i Hi. apply in_seq in Hi. apply Hf. lia. }
    rewrite attempts_app, sleeps_app, Ha, Hs, length_seq. cbn.
    now split.
  - intros k Hk Hf Hs.
    rewrite (setupConsul_for_registered registry m k retries 0 Hk);
      [ | intros j Hj; apply Hf; lia | exact Hs ].
    cbn [Nat.add]. split; [reflexivity|].
    destruct (failed_attempts_counts registry m (seq 0 k)) as [Ha Hsl].
    { intros i Hi. apply in_seq in Hi. apply Hf. lia. }
    destruct (setupConsulImpl_spec m (registry k)) as (_ & _ & Ha1 & Hs1).
    rewrite !attempts_app, !sleeps_app, Ha, Hsl, Ha1, Hs1, length_seq. cbn.
    rewrite app_nil_r. split; [lia | reflexivity].
Qed.

Lemma setupConsul_bounded_retry_witness :
  attempts (trace (setupConsul Scenario.always_down Scenario.fresh)) = 5%nat /\
  attempts (trace (setupConsul (Scenario.up_from 2) Scenario.fresh)) = 3%nat.
Proof.
  split.
  - destruct (setupConsul_bounded_retry Scenario.always_down Scenario.fresh)
      as (_ & _ & _ & H & _).
    apply H. intros i _. discriminate.
  - destruct (setupConsul_bounded_retry (Scenario.up_from 2) Scenario.fresh)
      as (_ & _ & _ & _ & H).
    apply (H 2%nat).
    + unfold retries. lia.
    + intros i Hi. destruct i as [|[|i]]; [discriminate | discriminate | lia].
    + reflexivity.
Defined.

(** C8, as stated, fails: with the node at block 0 and the explorer at
    block 16777217 the gauge is set to 16777216, the nearest [float32];
    and with the explorer at block [2^64] the value compared with the
    threshold is 0, not the absolute difference. *)
Lemma blocksbehind_is_difference_fails :
  ~ blocksbehind_is_difference /\
  gauges "blocksbehind"
         (trace (gatherMetrics (Scenario.healthy 0 16777217)
                               (Scenario.online true None)))
  = [GoFloat.float32_of_int 16777216] /\
  GoFloat.represents (GoFloat.float32_of_int 16777216) 16777217 = false /\
  blocksDiff_of (GoInt.Sub (2 ^ 64) 0) = 0.
Proof.
  split; [|repeat split].
  intros H.
  destruct (H (Scenario.healthy 0 16777217) (Scenario.online true None)
              0 16777217 eq_refl eq_refl) as (v & Hg & Hv & _).
  vm_compute in Hg. injection Hg as <-. vm_compute in Hv. discriminate Hv.
Qed.

(** C8 (amended).  In every round in which both block numbers are
    obtained, the [blocksbehind] gauge is set once, to the [float32]
    conversion of the signed difference [remote - local] taken as an
    [int64]; it equals the difference exactly whenever the difference is
    at most [2^24] in magnitude.  Whenever the difference fits an [int64]
    its absolute value is what is compared with the threshold.  With the
    node at block 80, the explorer at block 120 and a threshold of 5 the
    gauge is 40 and [synced] is false. *)
Theorem blocksbehind_is_rounded_difference (w : Answers) (m : Monitor)
        (local remote : GoInt.bigInt) :
  BlockNumber w = Ok local ->
  EtherscanBlockNumber w = Ok remote ->
  let r := gatherMetrics w m in
  let behind := remote - local in
  let gauge := GoFloat.float32_of_int (GoInt.Int64 behind) in
  gauges "blocksbehind" (trace r) = [gauge] /\
  (Z.abs behind <= 2 ^ 24 -> GoFloat.represents gauge behind = true) /\
  (Z.abs behind <= GoInt.maxInt64 ->
   synced (state r) = (Z.abs behind <=? SyncThreshold (config m))) /\
  (local = 80 -> remote = 120 -> SyncThreshold (config m) = 5 ->
   GoFloat.represents gauge 40 = true /\ synced (state r) = false).
Proof.
  intros Hl Hr r behind gauge. subst r gauge.
  rewrite gatherMetrics_blocksbehind, gatherMetrics_synced, Hl, Hr.
  unfold GoInt.Sub. fold behind.
  assert (Hlag : Z.abs behind <= GoInt.maxInt64 ->
                 blocksDiff_of behind = Z.abs behind).
  { intros Hfit. unfold blocksDiff_of, GoInt.int.
    now apply GoIntFacts.Int64_Abs_in_range. }
  split; [reflexivity|]. split; [|split].
  - intros Hsmall. rewrite GoIntFacts.Int64_in_range.
    + now apply GoFloatFacts.float32_of_int_exact.
    + unfold GoInt.in_int64, GoInt.minInt64, GoInt.maxInt64.
      assert (2 ^ 24 < 2 ^ 63) by (apply Z.pow_lt_mono_r; lia). lia.
  - intros Hfit. now rewrite Hlag.
  - intros -> -> Ht. subst behind. rewrite Ht. split; reflexivity.
Qed.

Lemma blocksbehind_is_rounded_difference_witness :
  gauges "blocksbehind"
         (trace (gatherMetrics (Scenario.healthy 80 120)
                               (Scenario.online true None)))
  = [GoFloat.float32_of_int 40] /\
  synced (state (gatherMetrics (Scenario.healthy 80 120)
                               (Scenario.online true None))) = false.
Proof.
  destruct (blocksbehind_is_rounded_difference
              (Scenario.healthy 80 120) (Scenario.online true None)
              80 120 eq_refl eq_refl) as (Hg & _ & _ & Hs).
  split; [exact Hg|]. apply Hs; reflexivity.
Defined.

(** C9.  On a tick taken while connected, when the round returns an
    error, [connected] is cleared exactly when the text of the aggregate
    contains connection refused.  Nothing else is looked at: with the
    default formatter any cause that contains the words, whichever query
    it came from, disconnects. *)
Theorem refusal_text_disconnects (F : list string -> string) (w : Answers)
        (m : Monitor) (es : list string) :
  connected m = true ->
  value (gatherMetrics w m) = Some es ->
  let m' := state (start_select F (TimeAfter w) m) in
  (GoStrings.Contains (F es) "connection refused" = true ->
   connected m' = false) /\
  (GoStrings.Contains (F es) "connection refused" = false ->
   connected m' = true) /\
  (forall e, In e es ->
     GoStrings.Contains e "connection refused" = true ->
     connected (state (start_select Multierror.ListFormatFunc
                                    (TimeAfter w) m)) = false).
Proof.
  intros Hc Hv m'. subst m'.
  destruct (gatherMetrics_frame w m) as (_ & _ & _ & _ & Hconn & _).
  cbv zeta in Hconn.
  split; [|split].
  - intros Ht. destruct (start_select_connected F w m Hc) as [-> _].
    now rewrite Hv, Ht.
  - intros Ht. destruct (start_select_connected F w m Hc) as [-> _].
    now rewrite Hv, Ht, Hconn.
  - intros e He Hsub.
    destruct (start_select_connected Multierror.ListFormatFunc w m Hc)
      as [-> _].
    now rewrite Hv, (GoStringsFacts.ListFormatFunc_mentions es e _ He Hsub).
Qed.

Lemma refusal_text_disconnects_witness :
  connected (state (start_select Multierror.ListFormatFunc
                      (TimeAfter (Scenario.explorer_refused 100))
                      (Scenario.online true None))) = false.
Proof.
  apply (refusal_text_disconnects Multierror.ListFormatFunc
           (Scenario.explorer_refused 100) (Scenario.online true None)
           ["Get https://api.etherscan.io/api: dial tcp: connect: connection refused"]);
    reflexivity.
Defined.

(** A round that gets neither a block number nor a block leaves the
    monitor as it was. *)
Lemma gatherMetrics_idle (w : Answers) (m : Monitor) :
  is_Ok (BlockNumber w) = false ->
  is_Ok (BlockByNumber w None) = false ->
  state (gatherMetrics w m) = m.
Proof.
  intros Hn Hb. destruct m.
  unfold gatherMetrics, ask, SetGauge, bind, ret, emit, get, modify, state.
  destruct (BlockNumber w); [discriminate|]. cbn.
  destruct (PeerCount w); cbn;
    (destruct (BlockByNumber w None); [discriminate|]); reflexivity.
Qed.

(** While disconnected nothing writes [synced] or [lastBlock]. *)
Lemma disconnected_keeps_sync_state (F : list string -> string)
      (sel : Select) (m : Monitor) :
  connected m = false ->
  synced (state (start_select F sel m)) = synced m /\
  lastBlock (state (start_select F sel m)) = lastBlock m.
Proof.
  intros Hc. destruct sel as [w|].
  - destruct (start_select_disconnected F w m Hc)
      as (_ & _ & _ & Hs & Hl & _).
    now split.
  - now rewrite start_select_CtxDone.
Qed.

(** C10.  The step from connected to disconnected writes [connected]
    and nothing else: the monitor after the tick is the monitor the round
    left, with [connected] cleared, so [synced] and [lastBlock] are as the
    round left them (as before the tick when the node answered neither
    the block number nor the block), and they stay so on every later
    outcome handled while disconnected. *)
Theorem disconnect_only_clears_connected (F : list string -> string)
        (w : Answers) (m : Monitor) (es : list string) :
  connected m = true ->
  value (gatherMetrics w m) = Some es ->
  GoStrings.Contains (F es) "connection refused" = true ->
  let r := gatherMetrics w m in
  let m' := state (start_select F (TimeAfter w) m) in
  m' = set_connected false (state r) /\
  connected m' = false /\
  synced m' = synced (state r) /\
  lastBlock m' = lastBlock (state r) /\
  (is_Ok (BlockNumber w) = false -> is_Ok (BlockByNumber w None) = false ->
   m' = set_connected false m) /\
  (forall sel,
     synced (state (start_select F sel m')) = synced m' /\
     lastBlock (state (start_select F sel m')) = lastBlock m').
Proof.
  intros Hc Hv Ht r m'.
  assert (Hm : m' = set_connected false (state r)).
  { subst m' r. destruct (start_select_connected F w m Hc) as [-> _].
    now rewrite Hv, Ht. }
  split; [exact Hm|]. rewrite Hm.
  split; [reflexivity|]. split; [reflexivity|]. split; [reflexivity|].
  split.
  - intros Hn Hb. subst r. now rewrite gatherMetrics_idle.
  - intros sel. now apply disconnected_keeps_sync_state.
Qed.

Lemma disconnect_only_clears_connected_witness :
  state (start_select Multierror.ListFormatFunc
           (TimeAfter Scenario.node_down)
           (Scenario.online true (Some (Scenario.block_at 100))))
  = set_connected false
      (Scenario.online true (Some (Scenario.block_at 100))).
Proof.
  destruct (disconnect_only_clears_connected Multierror.ListFormatFunc
              Scenario.node_down
              (Scenario.online true (Some (Scenario.block_at 100)))
              ["dial tcp 127.0.0.1:8545: connect: connection refused";
               "dial tcp 127.0.0.1:8545: connect: connection refused";
               "dial tcp 127.0.0.1:8545: connect: connection refused"]
              eq_refl eq_refl eq_refl) as (_ & _ & _ & _ & H & _).
  apply H; reflexivity.
Defined.

(* ================================================================= *)
(** ** Further properties of a gathering round *)

Section RoundProperties.

#[local] Opaque GoFloat.float32_of_int GoFloat.float32_of_float64
  GoFloat.Seconds GoFloat.Time_Sub GoInt.Int64 blocksDiff_of Z.leb.

(** X1.  A round writes two fields of the monitor and no other:
    [lastBlock] becomes the fetched block when the block query is
    answered, whatever its number, and [synced] is recomputed when both
    block numbers are obtained; otherwise each keeps its value. *)
Theorem round_writes_lastBlock_and_synced (w : Answers) (m : Monitor) :
  state (gatherMetrics w m)
  = set_synced
      (match BlockNumber w, EtherscanBlockNumber w with
       | Ok blockNumber, Ok realBlockNumber =>
           blocksDiff_of (GoInt.Sub realBlockNumber blockNumber)
             <=? SyncThreshold (config m)
       | _, _ => synced m
       end)
      (set_lastBlock
         (match BlockByNumber w (number_of (BlockNumber w)) with
          | Ok block => Some block
          | Err _ => lastBlock m
          end) m).
Proof.
  destruct m as [cfg ch es ec [last|] cn sy bl]; run_round.
Qed.

(** X2.  A round sets the [peers] gauge exactly when the peer count is
    obtained and the [blockNumber] gauge exactly when the block number is
    obtained, each once; it sets at most four gauges, each under one of
    the four metric names and labelled with the monitor's base labels. *)
Theorem round_gauges_follow_answers (w : Answers) (m : Monitor) :
  let t := trace (gatherMetrics w m) in
  gauges "peers" t
  = match PeerCount w with
    | Ok peers => [GoFloat.float32_of_int peers]
    | Err _ => []
    end /\
  gauges "blockNumber" t
  = match BlockNumber w with
    | Ok n => [GoFloat.float32_of_int (GoInt.Int64 n)]
    | Err _ => []
    end /\
  (length (gauge_events t) <= 4)%nat /\
  Forall (fun e => exists k v,
              e = SetGaugeWithLabels [k] v (baseLabels m) /\
              In k ["peers"; "blockNumber"; "blocktime"; "blocksbehind"])
         (gauge_events t).
Proof.
  run_round; unfold gauge_events; cbn;
    (split; [reflexivity|]); (split; [reflexivity|]); (split; [lia|]);
    repeat constructor;
    try (eexists; eexists; split; [reflexivity | cbn; tauto]).
Qed.

(** X3.  Lag is symmetric: a node ahead of the explorer is judged as a
    node equally far behind it. *)
Theorem synced_ignores_direction (w1 w2 : Answers) (m : Monitor)
        (a b : GoInt.bigInt) :
  BlockNumber w1 = Ok a -> EtherscanBlockNumber w1 = Ok b ->
  BlockNumber w2 = Ok b -> EtherscanBlockNumber w2 = Ok a ->
  synced (state (gatherMetrics w1 m)) = synced (state (gatherMetrics w2 m)).
Proof.
  intros Ha1 Hb1 Hb2 Ha2.
  rewrite !gatherMetrics_synced, Ha1, Hb1, Hb2, Ha2.
  Transparent blocksDiff_of.
  unfold blocksDiff_of, GoInt.Abs, GoInt.Sub.
  Opaque blocksDiff_of.
  now replace (Z.abs (b - a)) with (Z.abs (a - b)) by lia.
Qed.

End RoundProperties.

(* ================================================================= *)
(** ** Further properties of the polling loop *)

Section LoopProperties.

Variable F : list string -> string.

Lemma calls_app (t u : list Event) :
  calls (t ++ u) = (calls t ++ calls u)%list.
Proof. unfold calls. now rewrite flat_map_app. Qed.

Lemma times_app (kind : Query -> bool) (t u : list Event) :
  times kind (t ++ u) = (times kind t + times kind u)%nat.
Proof. unfold times. now rewrite calls_app, filter_app, length_app. Qed.

Lemma start_cons_state (sel : Select) (rest : list Select) (m : Monitor) :
  state (start F (sel :: rest) m)
  = state (start F rest (state (start_select F sel m))).
Proof. now rewrite start_cons. Qed.

Lemma start_cons_trace (sel : Select) (rest : list Select) (m : Monitor) :
  trace (start F (sel :: rest) m)
  = (trace (start_select F sel m)
     ++ trace (start F rest (state (start_select F sel m))))%list.
Proof. now rewrite start_cons. Qed.

(** What a pass through the loop body leaves alone. *)
Lemma start_select_frame (sel : Select) (m : Monitor) :
  config (state (start_select F sel m)) = config m /\
  chain (state (start_select F sel m)) = chain m /\
  baseLabels (state (start_select F sel m)) = baseLabels m.
Proof.
  destruct sel as [w|]; [|now rewrite start_select_CtxDone].
  destruct (connected m) eqn:Hc.
  - destruct (start_select_connected F w m Hc) as [-> _].
    destruct (gatherMetrics_frame w m) as (H1 & H2 & _ & _ & _ & H3).
    cbv zeta in *.
    destruct (value (gatherMetrics w m)) as [es|]; [|now repeat split].
    destruct (GoStrings.Contains (F es) "connection refused");
      now repeat split.
  - unfold start_select, setupApis, ask, logger_Printf, bind, ret, emit,
      get, modify, value, state, trace.
    rewrite Hc. cbn.
    destruct (Chain w) as [c|err]; cbn; [|now repeat split].
    destruct (c =? "kovan")%string; cbn; [now repeat split|].
    destruct (c =? "foundation")%string; cbn; now repeat split.
Qed.

(** The queries of one pass: a round when connected, the probe when
    not, nothing on cancellation. *)
Lemma start_select_calls (sel : Select) (m : Monitor) :
  calls (trace (start_select F sel m))
  = match sel with
    | TimeAfter w =>
        if connected m then calls (trace (gatherMetrics w m)) else [QChain]
    | CtxDone => []
    end.
Proof.
  destruct sel as [w|]; [|reflexivity].
  destruct (connected m) eqn:Hc.
  - destruct (start_select_connected F w m Hc) as [_ ->].
    rewrite calls_app.
    destruct (value (gatherMetrics w m)) as [es|]; [|now rewrite app_nil_r].
    destruct (GoStrings.Contains (F es) "connection refused");
      destruct (negb (Bool.eqb (synced m)
                        (synced (state (gatherMetrics w m)))));
      cbn; now rewrite app_nil_r.
  - now destruct (start_select_disconnected F w m Hc) as (-> & _).
Qed.

(** X4.  No run of the loop changes the configuration, the base labels
    or the [chain] field: the chain the node reports is logged and used
    to pick the explorer, but never stored. *)
Theorem start_never_stores_chain (sels : list Select) (m : Monitor) :
  config (state (start F sels m)) = config m /\
  chain (state (start F sels m)) = chain m /\
  baseLabels (state (start F sels m)) = baseLabels m.
Proof.
  revert m. induction sels as [|sel rest IH]; intros m; [now repeat split|].
  rewrite start_cons_state.
  destruct (IH (state (start_select F sel m))) as (-> & -> & ->).
  apply start_select_frame.
Qed.

(** Being wired once connected is kept by every pass. *)
Lemma start_select_wired (sel : Select) (m : Monitor) :
  (connected m = true -> wired m) ->
  connected (state (start_select F sel m)) = true ->
  wired (state (start_select F sel m)).
Proof.
  intros Hinv. destruct sel as [w|]; [|rewrite start_select_CtxDone; exact Hinv].
  destruct (connected m) eqn:Hc.
  - destruct (start_select_connected F w m Hc) as [-> _].
    destruct (gatherMetrics_frame w m) as (H1 & _ & H2 & H3 & H4 & _).
    cbv zeta in *. specialize (Hinv eq_refl). unfold wired in *.
    destruct (value (gatherMetrics w m)) as [es|].
    + destruct (GoStrings.Contains (F es) "connection refused");
        [discriminate|].
      intros _. now rewrite H1, H2, H3.
    + intros _. now rewrite H1, H2, H3.
  - destruct (start_select_frame (TimeAfter w) m) as (Hcfg & _).
    destruct (start_select_disconnected F w m Hc)
      as (_ & _ & _ & _ & _ & Hec & Hconn & Heth).
    unfold wired. rewrite Hconn, Heth, Hec, Hcfg.
    destruct (Chain w) as [c|]; [|discriminate].
    destruct (c =? "kovan")%string; [auto|].
    destruct (c =? "foundation")%string; [auto | discriminate].
Qed.

(** X5.  From a newly constructed monitor, whenever the loop is
    connected the node client is the one for the configured endpoint and
    the explorer is the kovan or the main-network one: a round never
    runs with a missing or unknown explorer. *)
Theorem connected_monitor_is_wired (cfg : Config) (sels : list Select) :
  let m := state (start F sels (NewMonitor cfg)) in
  connected m = true -> wired m.
Proof.
  cbv zeta.
  assert (H : forall m, (connected m = true -> wired m) ->
                        connected (state (start F sels m)) = true ->
                        wired (state (start F sels m))).
  { induction sels as [|sel rest IH]; intros m Hinv; [exact Hinv|].
    rewrite start_cons_state.
    apply IH. now apply start_select_wired. }
  apply H. discriminate.
Qed.

(** X6.  Every timer tick is spent on exactly one thing: a chain probe or
    a gathering round.  Over any run the number of probes plus the number
    of rounds (counted by their peer-count query) is the number of
    ticks. *)
Theorem one_probe_or_round_per_tick (sels : list Select) (m : Monitor) :
  (times isChain (trace (start F sels m))
   + times isPeerCount (trace (start F sels m)))%nat = ticks sels.
Proof.
  revert m. induction sels as [|sel rest IH]; intros m; [reflexivity|].
  rewrite start_cons_trace, !times_app.
  specialize (IH (state (start_select F sel m))).
  assert (Hstep : (times isChain (trace (start_select F sel m))
                   + times isPeerCount (trace (start_select F sel m)))%nat
                  = ticks [sel]).
  { unfold times. rewrite start_select_calls.
    destruct sel as [w|]; [|reflexivity].
    destruct (connected m); [|reflexivity].
    rewrite gatherMetrics_calls. now destruct (BlockNumber w). }
  replace (ticks (sel :: rest)) with (ticks [sel] + ticks rest)%nat
    by (unfold ticks; destruct sel; reflexivity).
  lia.
Qed.


(** X7.  After a tick that disconnects, the next tick does not gather:
    it only probes the chain, and it reconnects exactly when the node then
    reports a supported chain. *)
Theorem next_tick_after_disconnect_probes (w1 w2 : Answers) (m : Monitor)
        (es : list string) :
  connected m = true ->
  value (gatherMetrics w1 m) = Some es ->
  GoStrings.Contains (F es) "connection refused" = true ->
  let r := start F [TimeAfter w1; TimeAfter w2] m in
  calls (trace r) = (calls (trace (gatherMetrics w1 m)) ++ [QChain])%list /\
  (connected (state r) = true <-> supported (Chain w2)).
Proof.
  intros Hc Hv Ht r. subst r.
  assert (Hd : connected (state (start_select F (TimeAfter w1) m)) = false).
  { destruct (start_select_connected F w1 m Hc) as [-> _].
    now rewrite Hv, Ht. }
  rewrite start_cons_trace, start_cons_state, start_cons_trace,
    start_cons_state.
  cbn [start]. unfold ret. cbn [trace state fst snd].
  rewrite app_nil_r, calls_app, !start_select_calls, Hc, Hd.
  split; [reflexivity|].
  destruct (start_select_disconnected F w2 _ Hd)
    as (_ & _ & _ & _ & _ & _ & -> & _).
  unfold supported. destruct (Chain w2) as [c|]; [|split; [discriminate|]].
  - rewrite Bool.orb_true_iff, !String.eqb_eq.
    split; intros [H | H]; [left | right | left | right]; congruence.
  - intros [H | H]; discriminate H.
Qed.

(** X8.  On a tick taken while connected the logger receives nothing
    when the round returns no error; otherwise it receives the aggregate
    error once, followed by the node-down line exactly when the tick
    disconnects. *)
Theorem tick_logs_the_aggregate_once (w : Answers) (m : Monitor) :
  connected m = true ->
  logged (trace (start_select F (TimeAfter w) m))
  = match value (gatherMetrics w m) with
    | None => []
    | Some es =>
        ("Export errors: " ++ F es)%string
        :: (if GoStrings.Contains (F es) "connection refused"
            then ["Node may be down"] else [])
    end.
Proof.
  intros Hc. destruct (start_select_connected F w m Hc) as [_ ->].
  unfold logged. rewrite flat_map_app.
  destruct (gatherMetrics_silent w m) as [_ Hl]. unfold logged in Hl.
  rewrite Hl. cbn [app].
  destruct (value (gatherMetrics w m)) as [es|]; [|reflexivity].
  destruct (GoStrings.Contains (F es) "connection refused");
    destruct (negb (Bool.eqb (synced m)
                      (synced (state (gatherMetrics w m)))));
    reflexivity.
Qed.

Lemma gauges_app (name : string) (t u : list Event) :
  gauges name (t ++ u) = (gauges name t ++ gauges name u)%list.
Proof. unfold gauges. now rewrite flat_map_app. Qed.

(** X9.  While the node keeps failing the probe or reporting a chain
    other than kovan and foundation, the loop never connects: every tick
    is one more probe, no round runs and no gauge is set, however long
    this lasts. *)
Theorem unsupported_chain_is_probed_forever (sels : list Select)
        (m : Monitor) :
  connected m = false ->
  (forall w, In w (tick_answers sels) -> ~ supported (Chain w)) ->
  let r := start F sels m in
  connected (state r) = false /\
  calls (trace r) = repeat QChain (ticks sels) /\
  (forall name, gauges name (trace r) = []).
Proof.
  revert m. induction sels as [|sel rest IH]; intros m Hc Hw;
    [now repeat split|].
  cbv zeta. rewrite start_cons_state, start_cons_trace, calls_app.
  assert (Hstep : connected (state (start_select F sel m)) = false /\
                  calls (trace (start_select F sel m))
                  = repeat QChain (ticks [sel]) /\
                  forall name, gauges name (trace (start_select F sel m)) = []).
  { destruct sel as [w|]; [|now rewrite start_select_CtxDone].
    destruct (start_select_disconnected F w m Hc)
      as (Hcalls & Hg & _ & _ & _ & _ & Hconn & _).
    split; [|now split].
    rewrite Hconn. specialize (Hw w (or_introl eq_refl)). unfold supported in Hw.
    destruct (Chain w) as [c|]; [|reflexivity].
    destruct (String.eqb_spec c "kovan") as [-> | _]; [tauto|].
    destruct (String.eqb_spec c "foundation") as [-> | _]; [tauto|].
    reflexivity. }
  destruct Hstep as (Hc' & Hcalls & Hg).
  destruct (IH (state (start_select F sel m)) Hc') as (IH1 & IH2 & IH3).
  { intros w Hin. apply Hw. destruct sel; [now right | exact Hin]. }
  split; [exact IH1|]. split.
  - rewrite Hcalls, IH2, <- repeat_app. f_equal.
    unfold ticks. destruct sel; reflexivity.
  - intros name. now rewrite gauges_app, Hg, IH3.
Qed.

End LoopProperties.

(** X10.  [setupApis] replaces the node client before it probes, so a
    failed probe leaves a new client behind but keeps the explorer of the
    previous connection; it returns the node's own error when the probe
    fails, an error naming the chain when the chain is not supported, and
    [nil] for kovan and foundation, and it never touches [connected]. *)
Theorem setupApis_outcome (w : Answers) (m : Monitor) :
  let r := setupApis w m in
  value r
  = match Chain w with
    | Err err => Some err
    | Ok c =>
        if ((c =? "kovan") || (c =? "foundation"))%string then None
        else Some ("Chain " ++ c ++
          " not found. 'kovan' and 'foundation' are the only valid options")
    end /\
  ethClient (state r) = Some (Endpoint (config m)) /\
  (value r <> None -> etherscan (state r) = etherscan m) /\
  connected (state r) = connected m /\
  logged (trace r)
  = match Chain w, value r with
    | Ok c, None => ["Using chain " ++ c]
    | _, _ => []
    end.
Proof.
  unfold setupApis, ask, logger_Printf, bind, ret, emit, get, modify, value,
    state, trace.
  cbn. destruct (Chain w) as [c|err]; cbn; [|now repeat split].
  destruct (c =? "kovan")%string; cbn;
    [repeat split; intros H; now contradiction H|].
  destruct (c =? "foundation")%string; cbn;
    [repeat split; intros H; now contradiction H|].
  now repeat split.
Qed.

(* ================================================================= *)
(** ** Further properties of registration and construction *)

Section RegistrationProperties.

Variables (registry : nat -> ConsulAnswers) (m : Monitor).

Lemma registrations_app (t u : list Event) :
  registrations (t ++ u) = (registrations t ++ registrations u)%list.
Proof. unfold registrations. now rewrite flat_map_app. Qed.

(** One attempt sends the registration built from the configuration,
    unless the client could not be built. *)
Lemma setupConsulImpl_registrations (c : ConsulAnswers) :
  registrations (trace (setupConsulImpl c m))
  = match NewClient c with
    | None => [registration_of (config m)]
    | Some _ => []
    end.
Proof.
  unfold setupConsulImpl, bind, ret, emit, get, value, state, trace.
  cbn. destruct (NewClient c); cbn; [reflexivity|].
  now destruct (AgentServiceRegister c).
Qed.

Lemma setupConsul_for_trace (remaining i : nat) :
  trace (setupConsul_for (S remaining) i registry m)
  = match attempt_error (registry i) with
    | None =>
        (trace (setupConsulImpl (registry i) m)
         ++ [LoggerPrintf "Service registred in consul"])%list
    | Some err =>
        (trace (setupConsulImpl (registry i) m)
         ++ [LoggerPrintf ("Failed to connect to consul: " ++ err);
             Sleep sleepDuration]
         ++ trace (setupConsul_for remaining (S i) registry m))%list
    end.
Proof.
  rewrite setupConsul_for_step. unfold failed_attempt.
  destruct (attempt_error (registry i)); [|reflexivity].
  unfold trace at 1. cbn [snd]. now rewrite <- app_assoc.
Qed.

Lemma setupConsul_for_bounds (remaining i : nat) :
  let t := trace (setupConsul_for remaining i registry m) in
  (attempts t <= remaining)%nat /\
  (length (sleeps t) <= attempts t)%nat /\
  Forall (fun d => d = sleepDuration) (sleeps t) /\
  (length (registrations t) <= attempts t)%nat /\
  Forall (fun s => s = registration_of (config m)) (registrations t).
Proof.
  cbv zeta. revert i. induction remaining as [|n IH]; intros i.
  - cbn. repeat split; constructor.
  - rewrite setupConsul_for_trace.
    destruct (setupConsulImpl_spec m (registry i)) as (_ & _ & Ha & Hs).
    pose proof (setupConsulImpl_registrations (registry i)) as Hr.
    destruct (IH (S i)) as (I1 & I2 & I3 & I4 & I5).
    destruct (attempt_error (registry i)) as [err|];
      rewrite !attempts_app, !sleeps_app, !registrations_app, Ha, Hs, Hr;
      destruct (NewClient (registry i)); cbn;
      rewrite ?app_nil_r; repeat split;
      try lia; repeat constructor; assumption.
Qed.

(** X11.  Whatever the registry answers, the registration loop makes at
    most five attempts and pauses at most once per attempt, always for one
    minute, so it never sleeps more than five minutes in total. *)
Theorem setupConsul_never_exceeds_five :
  let t := trace (setupConsul registry m) in
  (attempts t <= 5)%nat /\
  (length (sleeps t) <= attempts t)%nat /\
  Forall (fun d => d = 60000000000) (sleeps t) /\
  fold_right Z.add 0 (sleeps t) <= 5 * GoFloat.Minute.
Proof.
  cbv zeta. unfold setupConsul.
  destruct (setupConsul_for_bounds retries 0) as (Ha & Hs & Hd & _).
  cbv zeta in *. change retries with 5%nat in *.
  split; [exact Ha|]. split; [exact Hs|]. split; [exact Hd|].
  assert (Hsum : forall l, Forall (fun d => d = sleepDuration) l ->
                   fold_right Z.add 0 l
                   = Z.of_nat (length l) * sleepDuration).
  { clear. intros l H. induction H as [|d l -> _ IH]; [reflexivity|].
    cbn [fold_right length]. rewrite IH. lia. }
  rewrite (Hsum _ Hd).
  change sleepDuration with 60000000000.
  change GoFloat.Minute with 60000000000. lia.
Qed.


End RegistrationProperties.


(* ================================================================= *)
(** ** The parity exporter *)

Section ExporterProperties.

Variable F : list string -> string.

Lemma startRPC_for_cons_tick (peers : result Z)
      (rest : list Exporter.Select) :
  Exporter.startRPC_for F (Exporter.TimeAfter peers :: rest)
  = (fst (Exporter.startRPC_for F rest),
     (fst (Exporter.rpcCalls peers)
      ++ match snd (Exporter.rpcCalls peers) with
         | Some es =>
             [Exporter.Logged
                ("[ERR]: Failed to make rpc calls to parity: " ++ F es)]
         | None => []
         end
      ++ snd (Exporter.startRPC_for F rest))%list).
Proof.
  cbn [Exporter.startRPC_for].
  destruct (Exporter.rpcCalls peers) as [t [es|]];
    destruct (Exporter.startRPC_for F rest) as [o t']; cbn;
    [now rewrite <- app_assoc | reflexivity].
Qed.

Lemma peer_queries_app (t u : list Exporter.Event) :
  peer_queries (t ++ u) = (peer_queries t + peer_queries u)%nat.
Proof. unfold peer_queries. now rewrite filter_app, length_app. Qed.

(** X14.  The exporter's loop returns exactly when a stop arrives, and
    what follows the first stop is never looked at.  Until then every
    tick asks the client for its peers once, whether earlier ticks failed
    or not. *)
Theorem startRPC_runs_until_first_stop (parityAddr : string)
        (sels post : list Exporter.Select) :
  let r := Exporter.startRPC F parityAddr sels in
  (fst r = Returned <-> stops sels = true) /\
  peer_queries (snd r) = ticks_before_stop sels /\
  (stops sels = true ->
   Exporter.startRPC F parityAddr (sels ++ post) = r).
Proof.
  cbv zeta. unfold Exporter.startRPC.
  assert (H : (fst (Exporter.startRPC_for F sels) = Returned
               <-> stops sels = true) /\
              peer_queries (snd (Exporter.startRPC_for F sels))
              = ticks_before_stop sels /\
              (stops sels = true ->
               Exporter.startRPC_for F (sels ++ post)
               = Exporter.startRPC_for F sels)).
  { induction sels as [|[peers|] rest IH].
    - cbn. repeat split; discriminate.
    - destruct IH as (IH1 & IH2 & IH3).
      change ((Exporter.TimeAfter peers :: rest) ++ post)%list
        with (Exporter.TimeAfter peers :: (rest ++ post))%list.
      rewrite !startRPC_for_cons_tick. cbn [fst snd stops existsb orb].
      split; [exact IH1|]. split.
      + rewrite !peer_queries_app, IH2. cbn [ticks_before_stop].
        destruct peers; cbn; lia.
      + intros Hs. now rewrite (IH3 Hs).
    - cbn. now repeat split. }
  destruct H as (H1 & H2 & H3).
  destruct (Exporter.startRPC_for F sels) as [o t] eqn:E.
  cbn [fst snd] in *. split; [exact H1|]. split.
  - unfold peer_queries in *. cbn. exact H2.
  - intros Hs. now rewrite (H3 Hs).
Qed.

End ExporterProperties.

Section HttpProperties.

Variable Obj : Type.
Variable Marshal : Obj -> result string.
Variable PromServe : Exporter.Request -> list Exporter.Response.
Variable DisplayMetrics : Exporter.Request -> option Obj * option string.

(** X15.  A request to [/metrics] whose method is not exactly GET is
    answered with status 500 and a body naming the method; neither the
    Prometheus handler nor the in-memory sink contributes to the
    response. *)
Theorem metrics_rejects_other_methods (req : Exporter.Request) :
  Exporter.Method req <> "GET" ->
  Exporter.metrics_handler Obj Marshal PromServe DisplayMetrics req
  = [Exporter.WriteHeader 500;
     Exporter.Write ("Incorrect method. Found " ++ Exporter.Method req
                     ++ ", only GET available")].
Proof.
  intros Hm.
  unfold Exporter.metrics_handler, Exporter.wrap,
    Exporter.MetricsRequest.
  destruct (String.eqb_spec (Exporter.Method req) "GET") as [E | _];
    [contradiction | reflexivity].
Qed.

(** X16.  A GET request whose first [format] value is exactly
    prometheus gets the Prometheus handler's response and nothing more.
    Any other GET request gets the in-memory sink's answer: status 500
    with the error text when the sink or the JSON encoding fails, nothing
    when the sink returns no object, and otherwise the JSON content type
    followed by the encoded object. *)
Theorem metrics_dispatches_on_format (req : Exporter.Request) :
  Exporter.Method req = "GET" ->
  let format := Exporter.Values_Get (Exporter.Query req) "format" in
  (format = "prometheus" ->
   Exporter.metrics_handler Obj Marshal PromServe DisplayMetrics req
   = PromServe req) /\
  (format <> "prometheus" ->
   Exporter.metrics_handler Obj Marshal PromServe DisplayMetrics req
   = match DisplayMetrics req with
     | (_, Some err) =>
         [Exporter.WriteHeader 500; Exporter.Write err]
     | (None, None) => []
     | (Some obj, None) =>
         match Marshal obj with
         | Err err => [Exporter.WriteHeader 500; Exporter.Write err]
         | Ok buf =>
             [Exporter.HeaderSet "Content-Type" "application/json";
              Exporter.Write buf]
         end
     end).
Proof.
  intros Hm format. subst format.
  unfold Exporter.metrics_handler, Exporter.wrap,
    Exporter.MetricsRequest.
  rewrite Hm. cbn [String.eqb Ascii.eqb Bool.eqb negb].
  change (("GET" =? "GET")%string) with true. cbn [negb].
  split.
  - intros ->. cbn. reflexivity.
  - intros Hf.
    destruct (String.eqb_spec
                (Exporter.Values_Get (Exporter.Query req) "format")
                "prometheus") as [E | _]; [contradiction|].
    destruct (DisplayMetrics req) as [[obj|] [err|]]; reflexivity.
Qed.

End HttpProperties.

(** X17.  Creating the exporter never fails: a Prometheus sink that
    cannot be created is passed over in silence, the exporter still gets
    its in-memory sink, and then no global sink is installed at all. *)
Theorem NewExporter_never_fails (nodeName hostname : string)
        (prom : option string) :
  let r := Exporter.NewExporter nodeName hostname prom in
  snd r = Ok (InmemSink (10 * GoFloat.Second) GoFloat.Minute) /\
  ((exists conf sink, In (NewGlobal conf sink) (fst r)) <-> prom = None) /\
  (forall conf sink, In (NewGlobal conf sink) (fst r) ->
     sink = SingleSink PrometheusSink /\ HostName conf = nodeName).
Proof.
  cbv zeta. unfold Exporter.NewExporter, Exporter.setupTelemetry.
  destruct prom as [err|]; cbn.
  - split; [reflexivity|]. split.
    + split; [|discriminate]. intros (conf & sink & H).
      intuition discriminate.
    + intros conf sink H. intuition discriminate.
  - split; [reflexivity|]. split.
    + split; [reflexivity|]. intros _. do 2 eexists. do 3 right. now left.
    + intros conf sink [H|[H|[H|[H|[]]]]]; try discriminate H.
      injection H as <- <-. now split.
Qed.

(* ================================================================= *)
(** ** Gauge values *)

Module GaugeFacts.
Import GoFloat GoFloatFacts.

(** A mantissa with the canonical exponent is left alone by rounding,
    at any precision. *)
Lemma binary_round_aux_fixed (prec emax : Z) (s : bool) (m : positive)
      (e : Z) :
  canonical_mantissa prec emax m e = true -> e <= emax - prec ->
  binary_round_aux prec emax s (Zpos m) e loc_Exact = S754_finite s m e.
Proof.
  unfold canonical_mantissa. intros Hc He. apply Z.eqb_eq in Hc.
  unfold binary_round_aux, shr_fexp. cbn [Zdigits2 shr_record_of_loc].
  rewrite Hc, Z.sub_diag. cbn [shr shr_m loc_of_shr_record round_nearest_even].
  cbn [Zdigits2]. rewrite Hc, Z.sub_diag. cbn [shr shr_m].
  destruct (Z.leb_spec e (emax - prec)); [reflexivity | lia].
Qed.

(** An integer with at most [prec] digits is kept as it is. *)
Lemma binary_round_short (prec emax : Z) (s : bool) (p : positive) :
  Zpos (digits2_pos p) <= prec ->
  3 - emax - prec <= Zpos (digits2_pos p) - prec ->
  0 <= emax - prec ->
  binary_round prec emax s p 0
  = S754_finite s (normalized prec p) (Zpos (digits2_pos p) - prec).
Proof.
  intros Hd Hmin Hmax. unfold binary_round, normalized.
  assert (Hf : fexp prec emax (Zpos (digits2_pos p) + 0)
               = Zpos (digits2_pos p) - prec).
  { unfold fexp, emin. lia. }
  rewrite Hf. unfold shl_align.
  destruct (Zpos (digits2_pos p) - prec - 0) as [|q|q] eqn:Hq; try lia.
  - replace (prec - Zpos (digits2_pos p)) with 0 by lia.
    replace (Zpos (digits2_pos p) - prec) with 0 by lia.
    apply binary_round_aux_fixed; [|lia].
    unfold canonical_mantissa. apply Z.eqb_eq. rewrite Z.add_0_r in Hf.
    rewrite Z.add_0_r, Hf. lia.
  - replace (prec - Zpos (digits2_pos p)) with (Zpos q) by lia.
    apply binary_round_aux_fixed; [|lia].
    unfold canonical_mantissa. apply Z.eqb_eq.
    rewrite iter_xO_digits. unfold fexp, emin. lia.
Qed.

Lemma shr_29 (q : positive) :
  iter_pos shr_1 29
    {| shr_m := Zpos (Pos.iter xO q 29); shr_r := false; shr_s := false |}
  = {| shr_m := Zpos q; shr_r := false; shr_s := false |}.
Proof. reflexivity. Qed.

Lemma normalized_53_24 (p : positive) :
  Zpos (digits2_pos p) <= 24 ->
  normalized 53 p = Pos.iter xO (normalized 24 p) 29.
Proof.
  intros Hd. unfold normalized.
  destruct (24 - Zpos (digits2_pos p)) as [|k|k] eqn:Hk; try lia.
  - now replace (53 - Zpos (digits2_pos p)) with 29 by lia.
  - replace (53 - Zpos (digits2_pos p)) with (Zpos (29 + k)) by lia.
    now rewrite Pos.iter_add.
Qed.

Lemma normalized_digits (prec : Z) (p : positive) :
  Zpos (digits2_pos p) <= prec ->
  Zpos (digits2_pos (normalized prec p)) = prec.
Proof.
  intros Hd. unfold normalized.
  destruct (prec - Zpos (digits2_pos p)) as [|k|k] eqn:Hk; try lia.
  rewrite iter_xO_digits. lia.
Qed.

(** Narrowing the [float64] of a small integer gives its [float32]. *)
Lemma float32_of_float64_of_int (z : Z) :
  Z.abs z < 2 ^ 24 ->
  float32_of_float64 (float64_of_int z) = float32_of_int z.
Proof.
  intros Hz. unfold float64_of_int, float32_of_int, binary_normalize.
  destruct z as [|p|p]; [reflexivity | |];
    (assert (Hd : Zpos (digits2_pos p) <= 24)
       by (apply digits2_pos_bound; lia));
    rewrite (binary_round_short 53 1024), (binary_round_short 24 128)
      by lia;
    unfold float32_of_float64, binary_round;
    rewrite normalized_53_24 by exact Hd;
    set (q := normalized 24 p);
    (assert (Hq : Zpos (digits2_pos q) = 24)
       by (apply normalized_digits; exact Hd));
    (assert (Hq' : Zpos (digits2_pos (Pos.iter xO q 29)) = 53)
       by (rewrite iter_xO_digits; lia));
    rewrite Hq';
    set (e := Zpos (digits2_pos p) - 53);
    (assert (Hf : fexp 24 128 (53 + e) = e + 29)
       by (unfold fexp, emin; lia));
    rewrite Hf; unfold shl_align;
    replace (e + 29 - e) with 29 by lia;
    unfold binary_round_aux, shr_fexp;
    cbn [Zdigits2 shr_record_of_loc]; rewrite Hq', Hf;
    replace (e + 29 - e) with 29 by lia;
    unfold shr; rewrite shr_29;
    cbn [shr_m loc_of_shr_record round_nearest_even Zdigits2
         shr_record_of_loc];
    rewrite Hq;
    (assert (Hf' : fexp 24 128 (24 + (e + 29)) = e + 29)
       by (unfold fexp, emin; lia));
    rewrite Hf', Z.sub_diag; cbn [shr_m];
    replace (e + 29) with (Zpos (digits2_pos p) - 24) by lia;
    (destruct (Z.leb_spec (Zpos (digits2_pos p) - 24) (128 - 24));
       [reflexivity | lia]).
Qed.

(** A whole number of seconds is a whole [float64]. *)
Lemma Seconds_whole (k : Z) :
  Z.abs k < 2 ^ 24 ->
  Seconds (k * Second) = float64_of_int k.
Proof.
  intros Hk. unfold Seconds. rewrite Z.quot_mul, Z.rem_mul by discriminate.
  change (float64_of_int 0) with (S754_zero false).
  change (SFdiv 53 1024 (S754_zero false) (float64_of_int 1000000000))
    with (S754_zero false).
  unfold float64_of_int, binary_normalize.
  destruct k as [|p|p]; [reflexivity | |];
    (assert (Hd : Zpos (digits2_pos p) <= 24)
       by (apply digits2_pos_bound; lia));
    now rewrite (binary_round_short 53 1024) by lia.
Qed.

(** The gauges for the two counts follow the answers. *)
Lemma gatherMetrics_counts (w : Answers) (m : Monitor) :
  gauges "peers" (trace (gatherMetrics w m))
  = match PeerCount w with
    | Ok peers => [float32_of_int peers]
    | Err _ => []
    end /\
  gauges "blockNumber" (trace (gatherMetrics w m))
  = match BlockNumber w with
    | Ok n => [float32_of_int (GoInt.Int64 n)]
    | Err _ => []
    end.
Proof.
  unfold gatherMetrics, ask, SetGauge, bind, ret, emit, get, modify, trace.
  destruct (PeerCount w), (BlockNumber w) as [n|];
    [ destruct (BlockByNumber w (Some n)), (EtherscanBlockNumber w)
    | destruct (BlockByNumber w None)
    | destruct (BlockByNumber w (Some n)), (EtherscanBlockNumber w)
    | destruct (BlockByNumber w None) ];
    destruct (lastBlock m); cbn -[float32_of_int GoInt.Int64 Z.leb];
    try (destruct (_ <=? _)); now split.
Qed.

End GaugeFacts.

(** X18.  The first block a monitor fetches gives no [blocktime].  After
    that, when the new block's timestamp differs from the last one's by a
    whole number of seconds (below [2^24] in magnitude), the [blocktime]
    gauge is exactly that number: zero for an equal timestamp, negative
    for an older block, never clamped. *)
Theorem blocktime_is_the_timestamp_difference (w : Answers) (m : Monitor) :
  let t := trace (gatherMetrics w m) in
  (lastBlock m = None -> gauges "blocktime" t = []) /\
  (forall block last k,
     BlockByNumber w (number_of (BlockNumber w)) = Ok block ->
     lastBlock m = Some last ->
     Timestamp block - Timestamp last = k * GoFloat.Second ->
     Z.abs k < 2 ^ 24 ->
     gauges "blocktime" t = [GoFloat.float32_of_int k] /\
     GoFloat.represents (GoFloat.float32_of_int k) k = true).
Proof.
  cbv zeta. rewrite gatherMetrics_blocktime. split.
  - intros ->. now destruct (BlockByNumber w (number_of (BlockNumber w))).
  - intros block last k -> -> Hk Hsmall.
    assert (Hsub : GoFloat.Time_Sub (Timestamp block) (Timestamp last)
                   = k * GoFloat.Second).
    { unfold GoFloat.Time_Sub, GoInt.minInt64, GoInt.maxInt64,
        GoFloat.Second in *.
      rewrite Hk.
      assert (2 ^ 24 * 1000000000 < 2 ^ 63) by reflexivity.
      assert (Z.abs (k * 1000000000) < 2 ^ 24 * 1000000000)
        by (rewrite Z.abs_mul; change (Z.abs 1000000000) with 1000000000;
            lia).
      lia. }
    rewrite Hsub, GaugeFacts.Seconds_whole,
      GaugeFacts.float32_of_float64_of_int by exact Hsmall.
    split; [reflexivity|].
    apply GoFloatFacts.float32_of_int_exact. lia.
Qed.

Lemma blocktime_is_the_timestamp_difference_witness :
  gauges "blocktime"
         (trace (gatherMetrics (Scenario.healthy 99 100)
                   (Scenario.online true (Some (Scenario.block_at 100)))))
  = [GoFloat.float32_of_int (-15)].
Proof.
  destruct (blocktime_is_the_timestamp_difference
              (Scenario.healthy 99 100)
              (Scenario.online true (Some (Scenario.block_at 100))))
    as [_ H].
  apply (H (Scenario.block_at 99) (Scenario.block_at 100) (-15));
    [reflexivity | reflexivity | reflexivity | vm_compute; reflexivity].
Defined.

(** X19.  The [peers] and [blockNumber] gauges carry the exact count and
    the exact height as long as these are at most [2^24] = 16777216 in
    magnitude. *)
Theorem small_counts_are_exact_gauges (w : Answers) (m : Monitor) :
  let t := trace (gatherMetrics w m) in
  (forall peers, PeerCount w = Ok peers -> Z.abs peers <= 2 ^ 24 ->
     exists v, gauges "peers" t = [v] /\
               GoFloat.represents v peers = true) /\
  (forall n, BlockNumber w = Ok n -> Z.abs n <= 2 ^ 24 ->
     exists v, gauges "blockNumber" t = [v] /\
               GoFloat.represents v n = true).
Proof.
  cbv zeta.
  destruct (GaugeFacts.gatherMetrics_counts w m) as (Hp & Hn).
  rewrite Hp, Hn. split.
  - intros peers -> Hs. eexists. split; [reflexivity|].
    now apply GoFloatFacts.float32_of_int_exact.
  - intros n -> Hs. eexists. split; [reflexivity|].
    rewrite GoIntFacts.Int64_in_range.
    + now apply GoFloatFacts.float32_of_int_exact.
    + unfold GoInt.in_int64, GoInt.minInt64, GoInt.maxInt64.
      assert (2 ^ 24 < 2 ^ 63) by reflexivity. lia.
Qed.

(* ================================================================= *)
(** ** Instances *)

Lemma synced_ignores_direction_witness :
  synced (state (gatherMetrics (Scenario.healthy 80 120)
                               (Scenario.online true None)))
  = synced (state (gatherMetrics (Scenario.healthy 120 80)
                                 (Scenario.online true None))).
Proof.
  apply (synced_ignores_direction
           (Scenario.healthy 80 120) (Scenario.healthy 120 80)
           (Scenario.online true None) 80 120); reflexivity.
Defined.

Lemma connected_monitor_is_wired_witness :
  wired (state (start Multierror.ListFormatFunc
                  [TimeAfter (Scenario.healthy 100 100);
                   TimeAfter (Scenario.healthy 101 101)]
                  (NewMonitor Scenario.cfg))).
Proof.
  apply (connected_monitor_is_wired Multierror.ListFormatFunc Scenario.cfg
           [TimeAfter (Scenario.healthy 100 100);
            TimeAfter (Scenario.healthy 101 101)]).
  reflexivity.
Defined.

Lemma next_tick_after_disconnect_probes_witness :
  calls (trace (start Multierror.ListFormatFunc
                  [TimeAfter Scenario.node_down;
                   TimeAfter (Scenario.healthy 100 100)]
                  (Scenario.online true None)))
  = [QPeerCount; QBlockNumber; QBlockByNumber None; QChain].
Proof.
  apply (next_tick_after_disconnect_probes Multierror.ListFormatFunc
           Scenario.node_down (Scenario.healthy 100 100)
           (Scenario.online true None)
           ["dial tcp 127.0.0.1:8545: connect: connection refused";
            "dial tcp 127.0.0.1:8545: connect: connection refused";
            "dial tcp 127.0.0.1:8545: connect: connection refused"]);
    reflexivity.
Defined.

Lemma tick_logs_the_aggregate_once_witness :
  logged (trace (start_select Multierror.ListFormatFunc
                   (TimeAfter (Scenario.healthy 100 100))
                   (Scenario.online true None))) = [].
Proof.
  apply (tick_logs_the_aggregate_once Multierror.ListFormatFunc
           (Scenario.healthy 100 100) (Scenario.online true None)).
  reflexivity.
Defined.

Lemma unsupported_chain_is_probed_forever_witness :
  calls (trace (start Multierror.ListFormatFunc Cases.never_up
                  Scenario.fresh)) = [QChain; QChain].
Proof.
  apply (unsupported_chain_is_probed_forever Multierror.ListFormatFunc
           Cases.never_up Scenario.fresh); [reflexivity|].
  intros w [<- | [<- | []]] [H | H]; discriminate H.
Defined.

Lemma setupApis_outcome_witness :
  etherscan (state (setupApis Scenario.ropsten
                      (Scenario.online false None)))
  = Some foundation_url.
Proof.
  destruct (setupApis_outcome Scenario.ropsten (Scenario.online false None))
    as (_ & _ & H & _).
  apply H. discriminate.
Defined.



Lemma startRPC_runs_until_first_stop_witness :
  fst (Exporter.startRPC Multierror.ListFormatFunc "localhost:8545"
         Cases.rpc_run) = Returned.
Proof.
  apply (startRPC_runs_until_first_stop Multierror.ListFormatFunc
           "localhost:8545" Cases.rpc_run []).
  reflexivity.
Defined.

Lemma metrics_rejects_other_methods_witness :
  Exporter.metrics_handler string Cases.marshal Cases.prom_page
    Cases.summary Cases.post
  = [Exporter.WriteHeader 500;
     Exporter.Write "Incorrect method. Found POST, only GET available"].
Proof.
  apply (metrics_rejects_other_methods string Cases.marshal Cases.prom_page
           Cases.summary Cases.post).
  discriminate.
Defined.

Lemma metrics_dispatches_on_format_witness :
  Exporter.metrics_handler string Cases.marshal Cases.prom_page
    Cases.summary Cases.get_prometheus
  = [Exporter.Write "# HELP parity_peers"] /\
  Exporter.metrics_handler string Cases.marshal Cases.prom_page
    Cases.summary Cases.get_plain
  = [Exporter.HeaderSet "Content-Type" "application/json";
     Exporter.Write "{}"].
Proof.
  split.
  - apply (metrics_dispatches_on_format string Cases.marshal Cases.prom_page
             Cases.summary Cases.get_prometheus eq_refl).
    reflexivity.
  - apply (metrics_dispatches_on_format string Cases.marshal Cases.prom_page
             Cases.summary Cases.get_plain eq_refl).
    discriminate.
Defined.

Lemma NewExporter_never_fails_witness :
  ~ (exists conf sink,
        In (NewGlobal conf sink)
           (fst (Exporter.NewExporter "parity" "host-1"
                   (Some "duplicate metrics collector registration attempted")))).
Proof.
  intros H.
  destruct (NewExporter_never_fails "parity" "host-1"
              (Some "duplicate metrics collector registration attempted"))
    as (_ & [Hn _] & _).
  discriminate (Hn H).
Defined.

Lemma small_counts_are_exact_gauges_witness :
  exists v,
    gauges "blockNumber"
           (trace (gatherMetrics (Scenario.healthy 100 100)
                                 (Scenario.online true None))) = [v] /\
    GoFloat.represents v 100 = true.
Proof.
  destruct (small_counts_are_exact_gauges (Scenario.healthy 100 100)
              (Scenario.online true None)) as [_ H].
  apply (H 100); [reflexivity | vm_compute; discriminate].
Defined.
